(** * CrudUsingFastAPI: products and a shared cart over a relational store

    A shallow embedding of [app.py].  The two tables are lists of rows kept in
    insertion order (the order of their auto-incremented primary keys); every
    handler is a computation in a small state-and-exception monad over the
    store, so that what a request returns and what it leaves in the database
    can both be read off.

    Python integers are [Z] and Python floats are IEEE binary64 (Rocq's
    primitive floats).  What the database makes of a value written to a
    column (whether it takes it, and what it then holds) is fixed by the
    database and not by [app.py]: it is a parameter, [Columns].  A write
    followed by [db.commit()] is one atomic update, which either goes through
    or raises and leaves the tables as they were.  Requests are served one at
    a time, each on a session of its own. *)

From Stdlib Require Import ZArith List String Bool Lia.
From Stdlib Require Import Floats.
Import ListNotations.

Open Scope string_scope.
Open Scope list_scope.
Open Scope Z_scope.

(** ** SQLAlchemy models: the rows of the two tables *)

Module ProductDB.
(** [class ProductDB(Base)], table [products]. *)
Record t : Type := Build
  { id : Z;
    name : string;
    price : float;
    description : option string }.
End ProductDB.

Module CartItemDB.
(** [class CartItemDB(Base)], table [cart_items]; [product_id] is a foreign
    key to [products.id] with [ondelete='CASCADE']. *)
Record t : Type := Build
  { id : Z;
    product_id : Z;
    quantity : Z }.

Definition with_quantity (q : Z) (c : t) : t :=
  {| id := id c; product_id := product_id c; quantity := q |}.
End CartItemDB.

(** ** Pydantic schemas: request and response shapes *)

Module Product.
(** [class Product(BaseModel)]: the request body carries an [id] too. *)
Record t : Type := Build
  { id : Z;
    name : string;
    price : float;
    description : option string }.
End Product.

Module CartItem.
Record t : Type := Build
  { product_id : Z;
    quantity : Z }.
End CartItem.

Module CartItemResponse.
Record t : Type := Build
  { product_id : Z;
    product_name : string;
    quantity : Z;
    price_per_unit : float;
    price_as_per_count : float }.
End CartItemResponse.

Module CartTotalResponse.
Record t : Type := Build
  { items : list CartItemResponse.t;
    total_price : float }.
End CartTotalResponse.

(** ** The store *)

(** The persistent state: both tables and the next value of each table's
    [AUTO_INCREMENT] primary key. *)
Record Store : Type := mkStore
  { products : list ProductDB.t;
    cart_items : list CartItemDB.t;
    products_next_id : Z;
    cart_items_next_id : Z }.

(** What [Base.metadata.create_all] leaves on a fresh database. *)
Definition empty_store : Store :=
  {| products := []; cart_items := [];
     products_next_id := 1; cart_items_next_id := 1 |}.

(** ** Exceptions and the handler monad *)

Inductive exn : Type :=
| HTTPException (status_code : Z) (detail : string)
| AttributeError          (* [None.price] and the like *)
| InvalidRequestError     (* [db.refresh] of a row that is gone *)
| DatabaseError           (* [db.commit()] of a write the database rejects *)
| ResponseValidationError. (* a return value the [response_model] rejects *)

Inductive result (A : Type) : Type :=
| Ok (a : A)
| Raise (e : exn).
Arguments Ok {A} a.
Arguments Raise {A} e.

(** A handler reads and writes the store and returns or raises; the store it
    leaves behind is kept in both cases. *)
Definition M (A : Type) : Type := Store -> result A * Store.

Definition ret {A} (a : A) : M A := fun s => (Ok a, s).

Definition raise {A} (e : exn) : M A := fun s => (Raise e, s).

Definition bind {A B} (m : M A) (k : A -> M B) : M B :=
  fun s =>
    match m s with
    | (Ok a, s') => k a s'
    | (Raise e, s') => (Raise e, s')
    end.

Declare Scope handler_scope.
Delimit Scope handler_scope with handler.
Notation "x <- m ;; k" := (bind m (fun x => k))
  (at level 61, m at next level, right associativity) : handler_scope.
Notation "m ;;; k" := (bind m (fun _ => k))
  (at level 61, right associativity) : handler_scope.
Open Scope handler_scope.

Definition result_of {A} (r : result A * Store) : result A := fst r.
Definition store_of {A} (r : result A * Store) : Store := snd r.


(** ** The columns of the database *)

(** What a column does with a value written to it: [None] when the database
    rejects the write, so that [db.commit()] raises; [Some v] when it takes
    it and holds [v] from then on, the value itself or what the column's
    width makes of it.  [store_integer] stands for [Column(Integer,
    nullable=False)], [store_float] for [Column(Float, nullable=False)] and
    [store_string] for [Column(String(255))]. *)
Class Columns : Type := Build_Columns
  { store_integer : Z -> option Z;
    store_float : float -> option float;
    store_string : string -> option string }.

(** Columns to run the handlers with: signed 32-bit integers, any float
    but NaN (which a database has no number for), strings of at most 255
    characters; what they take they hold as given, the rest they reject. *)
Definition sample_columns : Columns :=
  {| store_integer := fun z =>
       if (- 2 ^ 31 <=? z) && (z <=? 2 ^ 31 - 1) then Some z else None;
     store_float := fun x => if PrimFloat.is_nan x then None else Some x;
     store_string := fun x =>
       if (String.length x <=? 255)%nat then Some x else None |}.

Section Session.

Context {columns : Columns}.

(** A nullable [String(255)] column: [None] is stored as [NULL]. *)
Definition store_nullable_string (d : option string) : option (option string) :=
  match d with
  | None => Some None
  | Some x => option_map Some (store_string x)
  end.

(** ** Session primitives *)

Definition has_id (k : Z) (p : ProductDB.t) : bool := ProductDB.id p =? k.
Definition item_has_id (k : Z) (c : CartItemDB.t) : bool := CartItemDB.id c =? k.
Definition item_of_product (k : Z) (c : CartItemDB.t) : bool :=
  CartItemDB.product_id c =? k.

(** [db.query(ProductDB).filter(ProductDB.id == k).first()] *)
Definition query_product_first (k : Z) : M (option ProductDB.t) :=
  fun s => (Ok (find (has_id k) (products s)), s).

(** [db.query(ProductDB).all()] *)
Definition query_products_all : M (list ProductDB.t) :=
  fun s => (Ok (products s), s).

(** [db.query(CartItemDB).filter(CartItemDB.product_id == k).first()] *)
Definition query_cart_item_of_product_first (k : Z) : M (option CartItemDB.t) :=
  fun s => (Ok (find (item_of_product k) (cart_items s)), s).

(** [db.query(CartItemDB).filter(CartItemDB.id == k).first()] *)
Definition query_cart_item_first (k : Z) : M (option CartItemDB.t) :=
  fun s => (Ok (find (item_has_id k) (cart_items s)), s).

(** [db.query(CartItemDB).all()] *)
Definition query_cart_items_all : M (list CartItemDB.t) :=
  fun s => (Ok (cart_items s), s).

(** What the columns of a new [products] row hold for the name, price and
    description written, when all three are taken. *)
Definition stored_product (n : string) (p : float) (d : option string)
  : option (string * float * option string) :=
  match store_string n, store_float p, store_nullable_string d with
  | Some n', Some p', Some d' => Some (n', p', d')
  | _, _, _ => None
  end.

(** [db.add(ProductDB(name=.., price=.., description=..)); db.commit()]:
    the row is inserted under the next primary key with what the columns
    hold for its values, or the commit raises and nothing is inserted; the
    object returned stands for the Python object, now bound to that key. *)
Definition add_product_commit (n : string) (p : float) (d : option string)
  : M ProductDB.t :=
  fun s =>
    match stored_product n p d with
    | Some (n', p', d') =>
        let row := {| ProductDB.id := products_next_id s; ProductDB.name := n';
                      ProductDB.price := p'; ProductDB.description := d' |} in
        (Ok row,
         {| products := products s ++ [row];
            cart_items := cart_items s;
            products_next_id := products_next_id s + 1;
            cart_items_next_id := cart_items_next_id s |})
    | None => (Raise DatabaseError, s)
    end.

(** [db.refresh(db_product)]: the row is read again by primary key. *)
Definition refresh_product (obj : ProductDB.t) : M ProductDB.t :=
  fun s =>
    match find (has_id (ProductDB.id obj)) (products s) with
    | Some row => (Ok row, s)
    | None => (Raise InvalidRequestError, s)
    end.

(** [db.delete(product); db.commit()]: [DELETE FROM products WHERE id = ..];
    the foreign key's [ON DELETE CASCADE] removes the cart rows that
    reference the product. *)
Definition delete_product_commit (obj : ProductDB.t) : M unit :=
  fun s =>
    let k := ProductDB.id obj in
    (Ok tt,
     {| products := filter (fun p => negb (has_id k p)) (products s);
        cart_items := filter (fun c => negb (item_of_product k c)) (cart_items s);
        products_next_id := products_next_id s;
        cart_items_next_id := cart_items_next_id s |}).

(** [db.add(CartItemDB(product_id=.., quantity=..)); db.commit()] *)
Definition add_cart_item_commit (pid q : Z) : M CartItemDB.t :=
  fun s =>
    match store_integer q with
    | Some q' =>
        let row := {| CartItemDB.id := cart_items_next_id s;
                      CartItemDB.product_id := pid; CartItemDB.quantity := q' |} in
        (Ok row,
         {| products := products s;
            cart_items := cart_items s ++ [row];
            products_next_id := products_next_id s;
            cart_items_next_id := cart_items_next_id s + 1 |})
    | None => (Raise DatabaseError, s)
    end.

(** [cart_item.quantity = q; db.commit()]:
    [UPDATE cart_items SET quantity = q WHERE id = cart_item.id] *)
Definition set_quantity_commit (obj : CartItemDB.t) (q : Z) : M CartItemDB.t :=
  fun s =>
    let k := CartItemDB.id obj in
    match store_integer q with
    | Some q' =>
        (Ok (CartItemDB.with_quantity q' obj),
         {| products := products s;
            cart_items :=
              map (fun c => if item_has_id k c then CartItemDB.with_quantity q' c else c)
                  (cart_items s);
            products_next_id := products_next_id s;
            cart_items_next_id := cart_items_next_id s |})
    | None => (Raise DatabaseError, s)
    end.

(** [db.refresh(cart_item)] *)
Definition refresh_cart_item (obj : CartItemDB.t) : M CartItemDB.t :=
  fun s =>
    match find (item_has_id (CartItemDB.id obj)) (cart_items s) with
    | Some row => (Ok row, s)
    | None => (Raise InvalidRequestError, s)
    end.

(** [db.delete(cart_item); db.commit()] *)
Definition delete_cart_item_commit (obj : CartItemDB.t) : M unit :=
  fun s =>
    let k := CartItemDB.id obj in
    (Ok tt,
     {| products := products s;
        cart_items := filter (fun c => negb (item_has_id k c)) (cart_items s);
        products_next_id := products_next_id s;
        cart_items_next_id := cart_items_next_id s |}).

(** [item.product]: the many-to-one relationship, loaded by the foreign key;
    [None] when no product row has that key. *)
Definition load_product (item : CartItemDB.t) : M (option ProductDB.t) :=
  query_product_first (CartItemDB.product_id item).

(** ** Route handlers *)

Definition not_found (detail : string) : exn := HTTPException 404 detail.

(** The loop of [create_products]: one insert, commit and refresh per
    product of the request body, in order; the request's [id] is not used. *)
Fixpoint create_products_loop (body : list Product.t)
    (created_products : list ProductDB.t) : M (list ProductDB.t) :=
  match body with
  | [] => ret created_products
  | product :: rest =>
      db_product <- add_product_commit (Product.name product)
                      (Product.price product) (Product.description product) ;;
      db_product <- refresh_product db_product ;;
      create_products_loop rest (created_products ++ [db_product])
  end.

(** [POST /products/] *)
Definition create_products (body : list Product.t) : M (list ProductDB.t) :=
  create_products_loop body [].

(** [GET /products/] *)
Definition get_products : M (list ProductDB.t) := query_products_all.

(** [GET /products/{product_id}] *)
Definition get_product (product_id : Z) : M ProductDB.t :=
  product <- query_product_first product_id ;;
  match product with
  | None => raise (not_found "Product not found")
  | Some product => ret product
  end.

(** [DELETE /products/{product_id}]; the body returned is the dictionary
    [{"message": "Product deleted"}]. *)
Definition delete_product (product_id : Z) : M (list (string * string)) :=
  product <- query_product_first product_id ;;
  match product with
  | None => raise (not_found "Product not found")
  | Some product =>
      delete_product_commit product ;;;
      ret [("message", "Product deleted")]
  end.

(** [POST /cart/] *)
Definition add_to_cart (product_id quantity : Z) : M CartItem.t :=
  product <- query_product_first product_id ;;
  match product with
  | None => raise (not_found "Product not found")
  | Some _ =>
      cart_item <- query_cart_item_of_product_first product_id ;;
      cart_item <-
        match cart_item with
        | Some cart_item =>
            set_quantity_commit cart_item (CartItemDB.quantity cart_item + quantity)
        | None => add_cart_item_commit product_id quantity
        end ;;
      cart_item <- refresh_cart_item cart_item ;;
      ret {| CartItem.product_id := CartItemDB.product_id cart_item;
             CartItem.quantity := CartItemDB.quantity cart_item |}
  end.

(** [DELETE /cart/remove/{cart_item_id}] *)
Definition remove_cart_item (cart_item_id : Z) : M CartItem.t :=
  cart_item <- query_cart_item_first cart_item_id ;;
  match cart_item with
  | None => raise (not_found "Cart item not found")
  | Some cart_item =>
      let product_id := CartItemDB.product_id cart_item in
      delete_cart_item_commit cart_item ;;;
      product_to_delete <- query_product_first product_id ;;
      match product_to_delete with
      | Some product_to_delete => delete_product_commit product_to_delete
      | None => ret tt
      end ;;;
      ret {| CartItem.product_id := product_id; CartItem.quantity := 0 |}
  end.

(** Python's conversion of an [int] to a [float] for the quantities an
    [Integer] column holds: the nearest binary64 value, ties to even. *)
Definition float_of_Z (z : Z) : float :=
  SF2Prim (binary_normalize prec emax z 0 false).

Section CartTotal.

(** [int * float] converts its left operand first.  The conversion is a
    parameter of the development; [float_of_Z] is the instance used to
    run the handlers. *)
Variable int_to_float : Z -> float.

(** One row of the response, from a cart row and the product it loads. *)
Definition cart_item_response (item : CartItemDB.t) (product : ProductDB.t)
  : CartItemResponse.t :=
  {| CartItemResponse.product_id := ProductDB.id product;
     CartItemResponse.product_name := ProductDB.name product;
     CartItemResponse.quantity := CartItemDB.quantity item;
     CartItemResponse.price_per_unit := ProductDB.price product;
     CartItemResponse.price_as_per_count :=
       (int_to_float (CartItemDB.quantity item) * ProductDB.price product)%float |}.

(** The loop of [get_cart_total_price], with its two accumulators. *)
Fixpoint cart_total_loop (rows : list CartItemDB.t) (total_price : float)
    (items_response : list CartItemResponse.t)
  : M (float * list CartItemResponse.t) :=
  match rows with
  | [] => ret (total_price, items_response)
  | item :: rest =>
      product <- load_product item ;;
      match product with
      | None => raise AttributeError
      | Some product =>
          let item_total :=
            (int_to_float (CartItemDB.quantity item) * ProductDB.price product)%float in
          let total_price := (total_price + item_total)%float in
          cart_total_loop rest total_price
            (items_response ++ [cart_item_response item product])
      end
  end.

(** [GET /cart/total_price/] *)
Definition get_cart_total_price : M CartTotalResponse.t :=
  rows <- query_cart_items_all ;;
  acc <- cart_total_loop rows 0%float [] ;;
  ret {| CartTotalResponse.items := snd acc;
         CartTotalResponse.total_price := fst acc |}.

(** *** Requests as data *)

Inductive request : Type :=
| CreateProducts (body : list Product.t)
| GetProducts
| GetProduct (product_id : Z)
| DeleteProduct (product_id : Z)
| AddToCart (product_id quantity : Z)
| GetCartTotalPrice
| RemoveCartItem (cart_item_id : Z).

Inductive response : Type :=
| ProductsBody (l : list Product.t)
| ProductBody (p : Product.t)
| MessageBody (d : list (string * string))
| CartItemBody (c : CartItem.t)
| CartTotalBody (t : CartTotalResponse.t).

(** [response_model=Product]: the row returned is read into the schema,
    whose [description: str] takes no [None]. *)
Definition product_model (row : ProductDB.t) : option Product.t :=
  match ProductDB.description row with
  | Some d =>
      Some {| Product.id := ProductDB.id row;
              Product.name := ProductDB.name row;
              Product.price := ProductDB.price row;
              Product.description := Some d |}
  | None => None
  end.

(** [response_model=list[Product]] *)
Fixpoint products_model (rows : list ProductDB.t) : option (list Product.t) :=
  match rows with
  | [] => Some []
  | row :: rest =>
      match product_model row, products_model rest with
      | Some p, Some ps => Some (p :: ps)
      | _, _ => None
      end
  end.

(** A route without a [response_model], or with one that takes whatever
    its handler builds. *)
Definition respond {A} (wrap : A -> response) (m : M A) : M response :=
  a <- m ;; ret (wrap a).

(** A route whose [response_model] may reject what the handler returned:
    the handler has run, and committed, by then. *)
Definition respond_model {A B} (model : A -> option B) (wrap : B -> response)
    (m : M A) : M response :=
  a <- m ;;
  match model a with
  | Some b => ret (wrap b)
  | None => raise ResponseValidationError
  end.

(** The application: each route with its handler. *)
Definition handle (r : request) : M response :=
  match r with
  | CreateProducts body =>
      respond_model products_model ProductsBody (create_products body)
  | GetProducts => respond_model products_model ProductsBody get_products
  | GetProduct k => respond_model product_model ProductBody (get_product k)
  | DeleteProduct k => respond MessageBody (delete_product k)
  | AddToCart k q => respond CartItemBody (add_to_cart k q)
  | GetCartTotalPrice => respond CartTotalBody get_cart_total_price
  | RemoveCartItem k => respond CartItemBody (remove_cart_item k)
  end.

(** The stores that sequences of requests produce from the empty one. *)
Inductive reachable : Store -> Prop :=
| reachable_empty : reachable empty_store
| reachable_step (r : request) (s : Store) :
    reachable s -> reachable (store_of (handle r s)).

(** Running a list of requests, oldest first. *)
Definition run (rs : list request) (s : Store) : Store :=
  fold_left (fun s r => store_of (handle r s)) rs s.

End CartTotal.

End Session.

(** ** Constraints of the schema and the cart invariant *)

Definition product_ids (s : Store) : list Z := map ProductDB.id (products s).
Definition cart_item_ids (s : Store) : list Z := map CartItemDB.id (cart_items s).
Definition cart_product_ids (s : Store) : list Z :=
  map CartItemDB.product_id (cart_items s).

(** What the database itself maintains: primary keys are unique and below
    the table's counter, and every cart row references a product row. *)
Record store_ok (s : Store) : Prop := mk_store_ok
  { products_pk : NoDup (product_ids s);
    cart_items_pk : NoDup (cart_item_ids s);
    products_below_next :
      Forall (fun p => ProductDB.id p < products_next_id s) (products s);
    cart_items_below_next :
      Forall (fun c => CartItemDB.id c < cart_items_next_id s) (cart_items s);
    cart_items_fk :
      Forall (fun c => In (CartItemDB.product_id c) (product_ids s)) (cart_items s) }.

(** What only the handlers maintain: at most one cart row per product. *)
Definition one_row_per_product (s : Store) : Prop := NoDup (cart_product_ids s).

(** The cart rows of one product. *)
Definition cart_rows_of (product_id : Z) (s : Store) : list CartItemDB.t :=
  filter (item_of_product product_id) (cart_items s).

(** The quantity [add_to_cart] reports: the row's quantity after the
    increment, or the requested amount for a new row. *)
Definition quantity_after_add (existing : option CartItemDB.t) (quantity : Z) : Z :=
  match existing with
  | Some cart_item => CartItemDB.quantity cart_item + quantity
  | None => quantity
  end.

(** A response that is an HTTP 404. *)
Definition is_not_found {A} (r : result A) : bool :=
  match r with
  | Raise (HTTPException code _) => code =? 404
  | _ => false
  end.

(** The request fields a created product must carry back. *)
Definition same_fields (product : Product.t) (row : ProductDB.t) : Prop :=
  ProductDB.name row = Product.name product /\
  ProductDB.price row = Product.price product /\
  ProductDB.description row = Product.description product.

(** The response row the specification gives for a cart row: the product's
    id, name and current price, the quantity, and quantity times price. *)
Definition line_of (int_to_float : Z -> float) (s : Store)
    (item : CartItemDB.t) (line : CartItemResponse.t) : Prop :=
  exists product,
    find (has_id (CartItemDB.product_id item)) (products s) = Some product /\
    CartItemResponse.product_id line = CartItemDB.product_id item /\
    CartItemResponse.product_name line = ProductDB.name product /\
    CartItemResponse.quantity line = CartItemDB.quantity item /\
    CartItemResponse.price_per_unit line = ProductDB.price product /\
    CartItemResponse.price_as_per_count line =
      (int_to_float (CartItemDB.quantity item) * ProductDB.price product)%float.

(** The sum of the line totals, accumulated from [0.0] in row order. *)
Definition sum_of_lines (lines : list CartItemResponse.t) : float :=
  fold_left (fun acc line => (acc + CartItemResponse.price_as_per_count line)%float)
    lines 0%float.

(** ** Sample data *)

(** [{name: "Widget", price: 9.99}]; the literal is the binary64 value that
    Python reads [9.99] as. *)
Definition widget : Product.t :=
  {| Product.id := 0; Product.name := "Widget";
     Product.price := 0x1.3fae147ae147bp+3%float;
     Product.description := None |}.

Definition gadget : Product.t :=
  {| Product.id := 0; Product.name := "Gadget"; Product.price := 2.5%float;
     Product.description := Some "A small gadget" |}.

(** The store after the widget was created. *)
Definition widget_store : Store :=
  run (columns := sample_columns) float_of_Z [CreateProducts [widget]] empty_store.

(** The store after two widgets went into the cart. *)
Definition widget_in_cart : Store :=
  run (columns := sample_columns) float_of_Z
    [CreateProducts [widget]; AddToCart 1 2] empty_store.

(** ** Routes and what a request may answer *)

(** The HTTP method each route is registered under ([@app.post],
    [@app.get], [@app.delete]). *)
Inductive http_method : Type := POST | GET | DELETE.

Definition route_method (r : request) : http_method :=
  match r with
  | CreateProducts _ => POST
  | GetProducts => GET
  | GetProduct _ => GET
  | DeleteProduct _ => DELETE
  | AddToCart _ _ => POST
  | GetCartTotalPrice => GET
  | RemoveCartItem _ => DELETE
  end.

(** The rows [create_products] writes for a request body when the table's
    next key is [next]: consecutive keys, in the order of the body. *)
Fixpoint rows_from (next : Z) (body : list Product.t) : list ProductDB.t :=
  match body with
  | [] => []
  | product :: rest =>
      {| ProductDB.id := next;
         ProductDB.name := Product.name product;
         ProductDB.price := Product.price product;
         ProductDB.description := Product.description product |}
      :: rows_from (next + 1) rest
  end.

(** The two 404s of the application. *)
Definition product_not_found : exn := HTTPException 404 "Product not found".
Definition cart_item_not_found : exn := HTTPException 404 "Cart item not found".

(** A response that is the failure of a handler's own lookup: a cart row
    whose product is not there, a refresh that finds no row. *)
Definition lookup_failed {A} (r : result A) : bool :=
  match r with
  | Raise AttributeError => true
  | Raise InvalidRequestError => true
  | _ => false
  end.

Section Stored.

Context {columns : Columns}.

(** The columns take the name, price and description of a product of a
    request body and hold them as given. *)
Definition stored_as_given (product : Product.t) : Prop :=
  store_string (Product.name product) = Some (Product.name product) /\
  store_float (Product.price product) = Some (Product.price product) /\
  match Product.description product with
  | Some d => store_string d = Some d
  | None => True
  end.

(** The [Integer] column takes a quantity and holds it as given. *)
Definition quantity_stored_as_given (quantity : Z) : Prop :=
  store_integer quantity = Some quantity.

End Stored.

(** What the routes that answer with products can show: the schema of
    [response_model=Product] takes no missing description, and the price is
    a number that is neither infinite nor NaN. *)
Definition presentable (product : Product.t) : Prop :=
  Product.description product <> None /\
  PrimFloat.is_finite (Product.price product) = true.

(** A product of a request body as a response shows it once it has the
    key [k]. *)
Definition with_key (k : Z) (product : Product.t) : Product.t :=
  {| Product.id := k;
     Product.name := Product.name product;
     Product.price := Product.price product;
     Product.description := Product.description product |}.

(** A product whose price is not a number. *)
Definition priceless : Product.t :=
  {| Product.id := 0; Product.name := "Priceless"; Product.price := nan;
     Product.description := Some "No price" |}.

(** A product of a request body with the description [d]. *)
Definition described (d : string) (product : Product.t) : Product.t :=
  {| Product.id := Product.id product;
     Product.name := Product.name product;
     Product.price := Product.price product;
     Product.description := Some d |}.


Section Keyed.

Context {A : Type} (key : A -> Z).

Definition keyed (k : Z) (x : A) : bool := key x =? k.

Lemma find_keyed_some (k : Z) (l : list A) (x : A) :
  find (keyed k) l = Some x -> In x l /\ key x = k.
Proof.
  intros H. apply find_some in H. destruct H as [Hin Hk].
  split; [assumption | now apply Z.eqb_eq].
Qed.

Lemma find_keyed_none (k : Z) (l : list A) :
  find (keyed k) l = None <-> ~ In k (map key l).
Proof.
  induction l as [|x l IH]; simpl.
  - tauto.
  - unfold keyed at 1. destruct (Z.eqb_spec (key x) k) as [E|E].
    + split; [discriminate | intros H; exfalso; apply H; now left].
    + rewrite IH. tauto.
Qed.

Lemma find_keyed_in (k : Z) (l : list A) :
  In k (map key l) -> exists x, find (keyed k) l = Some x.
Proof.
  intros Hin. destruct (find (keyed k) l) as [x|] eqn:E.
  - now exists x.
  - apply find_keyed_none in E. contradiction.
Qed.

Lemma find_keyed_filter_out (k : Z) (l : list A) :
  find (keyed k) (filter (fun x => negb (keyed k x)) l) = None.
Proof.
  induction l as [|x l IH]; simpl; [reflexivity|].
  destruct (keyed k x) eqn:E; simpl; [assumption|].
  now rewrite E.
Qed.

Lemma find_keyed_app_old (k : Z) (l l' : list A) (x : A) :
  find (keyed k) l = Some x -> find (keyed k) (l ++ l') = Some x.
Proof.
  induction l as [|y l IH]; simpl; [discriminate|].
  destruct (keyed k y); auto.
Qed.

Lemma find_keyed_app_new (k : Z) (l l' : list A) :
  find (keyed k) l = None -> find (keyed k) (l ++ l') = find (keyed k) l'.
Proof.
  induction l as [|y l IH]; simpl; [reflexivity|].
  destruct (keyed k y); [discriminate | auto].
Qed.

Lemma find_keyed_unique (l : list A) (x : A) :
  NoDup (map key l) -> In x l -> find (keyed (key x)) l = Some x.
Proof.
  induction l as [|y l IH]; simpl; [contradiction|].
  intros Hnd Hin. inversion Hnd as [|? ? Hy Hnd']; subst.
  destruct Hin as [->|Hin].
  - unfold keyed. now rewrite Z.eqb_refl.
  - unfold keyed at 1. destruct (Z.eqb_spec (key y) (key x)) as [E|E].
    + exfalso. apply Hy. rewrite E. now apply in_map.
    + auto.
Qed.

Lemma in_map_filter (f : A -> bool) (k : Z) (l : list A) :
  In k (map key (filter f l)) -> In k (map key l).
Proof.
  rewrite !in_map_iff. intros [x [E Hin]].
  apply filter_In in Hin. exists x. tauto.
Qed.

Lemma NoDup_map_filter (f : A -> bool) (l : list A) :
  NoDup (map key l) -> NoDup (map key (filter f l)).
Proof.
  induction l as [|x l IH]; simpl; intros Hnd; [constructor|].
  inversion Hnd as [|? ? Hx Hnd']; subst.
  destruct (f x); simpl; auto.
  constructor; auto.
  intros Hin. apply Hx. eapply in_map_filter; eauto.
Qed.

Lemma NoDup_map_snoc (l : list A) (x : A) :
  NoDup (map key l) -> ~ In (key x) (map key l) -> NoDup (map key (l ++ [x])).
Proof.
  intros Hnd Hx. rewrite map_app. apply NoDup_app; simpl; auto.
  - constructor; [tauto | constructor].
  - intros a Ha [<-|[]]. contradiction.
Qed.

Lemma not_in_keys_below (n : Z) (l : list A) :
  Forall (fun x => key x < n) l -> ~ In n (map key l).
Proof.
  intros Hall Hin. apply in_map_iff in Hin. destruct Hin as [x [E Hin]].
  rewrite Forall_forall in Hall. specialize (Hall x Hin). lia.
Qed.

Lemma Forall_filter_keep (P : A -> Prop) (f : A -> bool) (l : list A) :
  Forall P l -> Forall P (filter f l).
Proof.
  rewrite !Forall_forall. intros H x Hin. apply filter_In in Hin. apply H, Hin.
Qed.

Lemma in_map_filter_other (j k : Z) (l : list A) :
  In j (map key l) -> j <> k ->
  In j (map key (filter (fun x => negb (keyed k x)) l)).
Proof.
  rewrite !in_map_iff. intros [x [E Hin]] Hjk. exists x. split; [assumption|].
  apply filter_In. split; [assumption|].
  unfold keyed. destruct (Z.eqb_spec (key x) k); [congruence | reflexivity].
Qed.

Lemma filter_keyed_none (k : Z) (l : list A) :
  find (keyed k) l = None -> filter (keyed k) l = [].
Proof.
  induction l as [|x l IH]; simpl; [reflexivity|].
  destruct (keyed k x); [discriminate | assumption].
Qed.

End Keyed.

(** The three lookups of the handlers are lookups by a key. *)
Lemma has_id_keyed (k : Z) : has_id k = keyed ProductDB.id k.
Proof. reflexivity. Qed.

Lemma item_has_id_keyed (k : Z) : item_has_id k = keyed CartItemDB.id k.
Proof. reflexivity. Qed.

Lemma item_of_product_keyed (k : Z) :
  item_of_product k = keyed CartItemDB.product_id k.
Proof. reflexivity. Qed.

Ltac keyed_view :=
  repeat first
    [ rewrite has_id_keyed in *
    | rewrite item_has_id_keyed in *
    | rewrite item_of_product_keyed in * ].

(** ** Rows rewritten in place, rows filtered out *)

Ltac unfold_store :=
  unfold store_of, product_ids, cart_item_ids, cart_product_ids,
    one_row_per_product in *; simpl in *.

Lemma set_quantity_keeps (B : Type) (f : CartItemDB.t -> B) (k q : Z)
    (l : list CartItemDB.t) :
  (forall c, f (CartItemDB.with_quantity q c) = f c) ->
  map f (map (fun c => if item_has_id k c then CartItemDB.with_quantity q c else c) l)
  = map f l.
Proof.
  intros Hf. rewrite map_map. apply map_ext.
  intros c. destruct (item_has_id k c); auto.
Qed.


Lemma find_keyed_filter_twice {A : Type} (key : A -> Z) (f : A -> bool) (k : Z)
    (l : list A) :
  find (keyed key k) (filter f (filter (fun x => negb (keyed key k x)) l)) = None.
Proof.
  apply find_keyed_none. intros Hin. apply in_map_filter in Hin.
  apply (find_keyed_none key k) in Hin; [assumption|].
  apply find_keyed_filter_out.
Qed.

Lemma cart_rows_after_set_quantity (k j q : Z) (l : list CartItemDB.t) :
  filter (item_of_product k)
    (map (fun c => if item_has_id j c then CartItemDB.with_quantity q c else c) l)
  = map (fun c => if item_has_id j c then CartItemDB.with_quantity q c else c)
      (filter (item_of_product k) l).
Proof.
  induction l as [|c l IH]; simpl; [reflexivity|].
  replace (item_of_product k
             (if item_has_id j c then CartItemDB.with_quantity q c else c))
    with (item_of_product k c) by (destruct (item_has_id j c); reflexivity).
  destruct (item_of_product k c); simpl; now rewrite IH.
Qed.

Lemma find_keyed_filter_other {A : Type} (key : A -> Z) (j k : Z) (l : list A) :
  j <> k ->
  find (keyed key j) (filter (fun x => negb (keyed key k x)) l) = find (keyed key j) l.
Proof.
  intros Hjk. induction l as [|x l IH]; simpl; [reflexivity|].
  destruct (keyed key k x) eqn:Ek; simpl.
  - assert (Ej : keyed key j x = false).
    { unfold keyed in *. apply Z.eqb_eq in Ek. apply Z.eqb_neq. congruence. }
    now rewrite Ej.
  - destruct (keyed key j x); [reflexivity | exact IH].
Qed.

Lemma keyed_injective {A : Type} (key : A -> Z) (l : list A) (x y : A) :
  NoDup (map key l) -> In x l -> In y l -> key x = key y -> x = y.
Proof.
  intros Hnd Hx Hy E.
  pose proof (find_keyed_unique key l x Hnd Hx) as Fx.
  pose proof (find_keyed_unique key l y Hnd Hy) as Fy.
  rewrite E in Fx. congruence.
Qed.

Lemma filter_filter_absorb {A : Type} (f g : A -> bool) (l : list A) :
  (forall x, In x l -> f x = true -> g x = true) ->
  filter f (filter g l) = filter f l.
Proof.
  induction l as [|x l IH]; intros H; simpl; [reflexivity|].
  assert (IH' : filter f (filter g l) = filter f l).
  { apply IH. intros y Hy. apply H. now right. }
  destruct (f x) eqn:Ef.
  - rewrite (H x (or_introl eq_refl) Ef). simpl. now rewrite Ef, IH'.
  - destruct (g x); simpl; [now rewrite Ef|]; exact IH'.
Qed.

Lemma find_map_same_test {A : Type} (f : A -> bool) (g : A -> A) (l : list A) :
  (forall x, f (g x) = f x) ->
  find f (map g l) = option_map g (find f l).
Proof.
  intros H. induction l as [|x l IH]; simpl; [reflexivity|].
  rewrite H. destruct (f x); [reflexivity | exact IH].
Qed.

Lemma map_set_quantity_absent (k q : Z) (l : list CartItemDB.t) :
  ~ In k (map CartItemDB.id l) ->
  map (fun c => if item_has_id k c then CartItemDB.with_quantity q c else c) l = l.
Proof.
  intros Hk. rewrite <- (map_id l) at 2. apply map_ext_in.
  intros c Hc. unfold item_has_id.
  destruct (Z.eqb_spec (CartItemDB.id c) k) as [E|E]; [|reflexivity].
  exfalso. apply Hk. rewrite <- E. now apply in_map.
Qed.


(** ** Lists related pairwise *)

Lemma Forall2_compose {A B C : Type} (R : A -> B -> Prop) (S : B -> C -> Prop)
    (T : A -> C -> Prop) (la : list A) (lb : list B) (lc : list C) :
  (forall a b c, R a b -> S b c -> T a c) ->
  Forall2 R la lb -> Forall2 S lb lc -> Forall2 T la lc.
Proof.
  intros H HR. revert lc. induction HR as [|a b la lb Hab _ IH]; intros lc HS.
  - inversion HS. constructor.
  - inversion HS as [|? c ? lc' Hbc HS']; subst. constructor; eauto.
Qed.

Lemma Forall2_in_right {A B : Type} (R : A -> B -> Prop) (la : list A)
    (lb : list B) (b : B) :
  Forall2 R la lb -> In b lb -> exists a, In a la /\ R a b.
Proof.
  induction 1 as [|a b' la lb Hab _ IH]; intros Hin; [contradiction|].
  destruct Hin as [<-|Hin].
  - exists a. split; [now left | assumption].
  - destruct (IH Hin) as (a' & Ha' & HR). exists a'. split; [now right | assumption].
Qed.

Section Properties.

Context {columns : Columns}.

Variable int_to_float : Z -> float.

(** ** The writes keep the constraints of the schema *)

Lemma stored_product_as_given (product : Product.t) :
  stored_as_given product ->
  stored_product (Product.name product) (Product.price product)
    (Product.description product)
  = Some (Product.name product, Product.price product, Product.description product).
Proof.
  intros (Hn & Hp & Hd). unfold stored_product. rewrite Hn, Hp.
  destruct (Product.description product) as [d|]; simpl; [|reflexivity].
  now rewrite Hd.
Qed.

Lemma add_product_commit_ok (n : string) (p : float) (d : option string) (s : Store) :
  store_ok s -> store_ok (store_of (add_product_commit n p d s)).
Proof.
  intros Hok. unfold add_product_commit.
  destruct (stored_product n p d) as [[[n' p'] d']|]; [|exact Hok].
  destruct Hok as [Hp Hc Hpn Hcn Hfk]. constructor; unfold_store; auto.
  - apply (NoDup_map_snoc ProductDB.id); auto.
    simpl. now apply not_in_keys_below.
  - apply Forall_app. split.
    + eapply Forall_impl; [|exact Hpn]. simpl. intros; lia.
    + constructor; [simpl; lia | constructor].
  - eapply Forall_impl; [|exact Hfk]. simpl. intros c Hin.
    rewrite map_app. apply in_or_app. now left.
Qed.

Lemma delete_product_commit_ok (obj : ProductDB.t) (s : Store) :
  store_ok s -> store_ok (store_of (delete_product_commit obj s)).
Proof.
  intros [Hp Hc Hpn Hcn Hfk]. constructor; unfold_store.
  - now apply NoDup_map_filter.
  - now apply NoDup_map_filter.
  - now apply Forall_filter_keep.
  - now apply Forall_filter_keep.
  - rewrite Forall_forall in *. intros c Hin.
    apply filter_In in Hin. destruct Hin as [Hin Hk].
    apply (in_map_filter_other ProductDB.id); auto.
    unfold item_of_product in Hk. intros E. rewrite E, Z.eqb_refl in Hk.
    discriminate.
Qed.

Lemma add_cart_item_commit_ok (pid q : Z) (s : Store) :
  store_ok s -> In pid (product_ids s) ->
  store_ok (store_of (add_cart_item_commit pid q s)).
Proof.
  intros Hok Hin. unfold add_cart_item_commit.
  destruct (store_integer q) as [q'|]; [|exact Hok].
  destruct Hok as [Hp Hc Hpn Hcn Hfk]. constructor; unfold_store; auto.
  - apply (NoDup_map_snoc CartItemDB.id); auto.
    simpl. now apply not_in_keys_below.
  - apply Forall_app. split.
    + eapply Forall_impl; [|exact Hcn]. simpl. intros; lia.
    + constructor; [simpl; lia | constructor].
  - apply Forall_app. split; auto.
Qed.

Lemma set_quantity_commit_ok (obj : CartItemDB.t) (q : Z) (s : Store) :
  store_ok s -> store_ok (store_of (set_quantity_commit obj q s)).
Proof.
  intros Hok. unfold set_quantity_commit.
  destruct (store_integer q) as [q'|]; [|exact Hok].
  destruct Hok as [Hp Hc Hpn Hcn Hfk].
  constructor; unfold store_of, product_ids in *; simpl; auto.
  - unfold cart_item_ids. simpl. now rewrite set_quantity_keeps.
  - rewrite Forall_forall in *. intros c Hin.
    apply in_map_iff in Hin. destruct Hin as [c0 [E Hin]].
    specialize (Hcn c0 Hin). subst c.
    destruct (item_has_id _ c0); simpl; assumption.
  - rewrite Forall_forall in *. intros c Hin.
    apply in_map_iff in Hin. destruct Hin as [c0 [E Hin]].
    specialize (Hfk c0 Hin). subst c.
    destruct (item_has_id _ c0); simpl; assumption.
Qed.

Lemma delete_cart_item_commit_ok (obj : CartItemDB.t) (s : Store) :
  store_ok s -> store_ok (store_of (delete_cart_item_commit obj s)).
Proof.
  intros [Hp Hc Hpn Hcn Hfk]. constructor; unfold_store; auto.
  - now apply NoDup_map_filter.
  - now apply Forall_filter_keep.
  - now apply Forall_filter_keep.
Qed.

(** ** The writes and the one-row-per-product invariant *)

Lemma add_product_commit_one_row (n : string) (p : float) (d : option string)
    (s : Store) :
  one_row_per_product s ->
  one_row_per_product (store_of (add_product_commit n p d s)).
Proof.
  unfold add_product_commit.
  now destruct (stored_product n p d) as [[[n' p'] d']|].
Qed.

Lemma delete_product_commit_one_row (obj : ProductDB.t) (s : Store) :
  one_row_per_product s ->
  one_row_per_product (store_of (delete_product_commit obj s)).
Proof. unfold_store. apply NoDup_map_filter. Qed.

Lemma add_cart_item_commit_one_row (pid q : Z) (s : Store) :
  find (item_of_product pid) (cart_items s) = None ->
  one_row_per_product s ->
  one_row_per_product (store_of (add_cart_item_commit pid q s)).
Proof.
  intros Hnone Hnd. unfold add_cart_item_commit.
  destruct (store_integer q) as [q'|]; [|exact Hnd].
  unfold_store.
  apply (NoDup_map_snoc CartItemDB.product_id); auto.
  simpl. now apply find_keyed_none.
Qed.

Lemma set_quantity_commit_one_row (obj : CartItemDB.t) (q : Z) (s : Store) :
  one_row_per_product s ->
  one_row_per_product (store_of (set_quantity_commit obj q s)).
Proof.
  intros Hnd. unfold set_quantity_commit.
  destruct (store_integer q) as [q'|]; [|exact Hnd].
  unfold one_row_per_product, cart_product_ids, store_of. simpl.
  now rewrite set_quantity_keeps.
Qed.

Lemma delete_cart_item_commit_one_row (obj : CartItemDB.t) (s : Store) :
  one_row_per_product s ->
  one_row_per_product (store_of (delete_cart_item_commit obj s)).
Proof. unfold_store. apply NoDup_map_filter. Qed.

(** ** What each handler computes *)

Lemma get_product_eq (k : Z) (s : Store) :
  get_product k s =
  match find (has_id k) (products s) with
  | Some product => (Ok product, s)
  | None => (Raise (not_found "Product not found"), s)
  end.
Proof.
  unfold get_product, bind, query_product_first.
  destruct (find (has_id k) (products s)); reflexivity.
Qed.

Lemma delete_product_eq (k : Z) (s : Store) :
  delete_product k s =
  match find (has_id k) (products s) with
  | Some product =>
      (Ok [("message", "Product deleted")], store_of (delete_product_commit product s))
  | None => (Raise (not_found "Product not found"), s)
  end.
Proof.
  unfold delete_product, bind, query_product_first.
  destruct (find (has_id k) (products s)); reflexivity.
Qed.

Lemma remove_cart_item_eq (k : Z) (s : Store) :
  remove_cart_item k s =
  match find (item_has_id k) (cart_items s) with
  | Some cart_item =>
      let s1 := store_of (delete_cart_item_commit cart_item s) in
      (Ok {| CartItem.product_id := CartItemDB.product_id cart_item;
             CartItem.quantity := 0 |},
       match find (has_id (CartItemDB.product_id cart_item)) (products s) with
       | Some product => store_of (delete_product_commit product s1)
       | None => s1
       end)
  | None => (Raise (not_found "Cart item not found"), s)
  end.
Proof.
  unfold remove_cart_item, bind, query_cart_item_first.
  destruct (find (item_has_id k) (cart_items s)) as [c|]; [|reflexivity].
  unfold query_product_first, delete_cart_item_commit. simpl.
  destruct (find (has_id (CartItemDB.product_id c)) (products s)); reflexivity.
Qed.

(** The store [add_to_cart] leaves: untouched on a missing product, else
    what one update of the product's first row or one insert leaves, which
    is the store as it was when the commit raises. *)
Lemma add_to_cart_store (k q : Z) (s : Store) :
  store_of (add_to_cart k q s) =
  match find (has_id k) (products s) with
  | None => s
  | Some _ =>
      match find (item_of_product k) (cart_items s) with
      | Some cart_item =>
          store_of (set_quantity_commit cart_item (CartItemDB.quantity cart_item + q) s)
      | None => store_of (add_cart_item_commit k q s)
      end
  end.
Proof.
  unfold add_to_cart, bind, query_product_first, query_cart_item_of_product_first.
  destruct (find (has_id k) (products s)); [|reflexivity].
  destruct (find (item_of_product k) (cart_items s)) as [c|].
  - unfold set_quantity_commit.
    destruct (store_integer (CartItemDB.quantity c + q)) as [q'|]; [|reflexivity].
    unfold refresh_cart_item. cbn [fst snd].
    match goal with |- context [find ?f ?l] => destruct (find f l) end; reflexivity.
  - unfold add_cart_item_commit.
    destruct (store_integer q) as [q'|]; [|reflexivity].
    unfold refresh_cart_item. cbn [fst snd].
    match goal with |- context [find ?f ?l] => destruct (find f l) end; reflexivity.
Qed.

(** [add_to_cart] raises a 404 only for a missing product. *)
Lemma add_to_cart_not_found (k q : Z) (s : Store) :
  is_not_found (result_of (add_to_cart k q s)) = true ->
  find (has_id k) (products s) = None.
Proof.
  unfold add_to_cart, bind, query_product_first, query_cart_item_of_product_first.
  destruct (find (has_id k) (products s)) as [p|]; [|reflexivity].
  destruct (find (item_of_product k) (cart_items s)) as [c|].
  - unfold set_quantity_commit.
    destruct (store_integer (CartItemDB.quantity c + q)) as [q'|];
      [|simpl; discriminate].
    unfold refresh_cart_item. cbn [fst snd].
    match goal with |- context [find ?f ?l] => destruct (find f l) end;
      simpl; discriminate.
  - unfold add_cart_item_commit.
    destruct (store_integer q) as [q'|]; [|simpl; discriminate].
    unfold refresh_cart_item. cbn [fst snd].
    match goal with |- context [find ?f ?l] => destruct (find f l) end;
      simpl; discriminate.
Qed.

(** The row an update wrote is the one a refresh reads back. *)
Lemma find_after_set_quantity (c : CartItemDB.t) (q : Z) (l : list CartItemDB.t) :
  NoDup (map CartItemDB.id l) -> In c l ->
  find (item_has_id (CartItemDB.id c))
    (map (fun x => if item_has_id (CartItemDB.id c) x
                   then CartItemDB.with_quantity q x else x) l)
  = Some (CartItemDB.with_quantity q c).
Proof.
  induction l as [|y l IH]; simpl; [contradiction|].
  intros Hnd Hin. inversion Hnd as [|? ? Hy Hnd']; subst.
  destruct Hin as [->|Hin].
  - unfold item_has_id at 2. rewrite Z.eqb_refl.
    unfold item_has_id. simpl. now rewrite Z.eqb_refl.
  - destruct (item_has_id (CartItemDB.id c) y) eqn:E.
    + exfalso. apply Hy. unfold item_has_id in E. apply Z.eqb_eq in E.
      rewrite E. now apply in_map.
    + rewrite E. auto.
Qed.

(** When the column takes the quantity written, [add_to_cart] answers
    with what the column holds for it. *)
Lemma add_to_cart_result (k q v : Z) (s : Store) (product : ProductDB.t) :
  store_ok s ->
  find (has_id k) (products s) = Some product ->
  store_integer (quantity_after_add (find (item_of_product k) (cart_items s)) q)
    = Some v ->
  result_of (add_to_cart k q s) =
  Ok {| CartItem.product_id := k; CartItem.quantity := v |}.
Proof.
  intros Hok Hp Hv.
  unfold add_to_cart, bind, query_product_first, query_cart_item_of_product_first.
  rewrite Hp.
  destruct (find (item_of_product k) (cart_items s)) as [c|] eqn:Hc;
    cbn [quantity_after_add] in Hv.
  - unfold set_quantity_commit. rewrite Hv.
    unfold refresh_cart_item. cbn [fst snd cart_items].
    apply (find_keyed_some CartItemDB.product_id) in Hc. destruct Hc as [Hin Hk].
    change (CartItemDB.id (CartItemDB.with_quantity v c)) with (CartItemDB.id c).
    rewrite find_after_set_quantity; auto using cart_items_pk.
    + simpl. now rewrite Hk.
    + apply (cart_items_pk s Hok).
  - unfold add_cart_item_commit. rewrite Hv.
    unfold refresh_cart_item. cbn [fst snd cart_items].
    rewrite (find_keyed_app_new CartItemDB.id).
    + simpl. unfold keyed. simpl. now rewrite Z.eqb_refl.
    + apply find_keyed_none. apply not_in_keys_below.
      apply (cart_items_below_next s Hok).
Qed.

(** When the column rejects the quantity written, [add_to_cart] raises
    what the commit raised and writes nothing. *)
Lemma add_to_cart_rejected (k q : Z) (s : Store) (product : ProductDB.t) :
  find (has_id k) (products s) = Some product ->
  store_integer (quantity_after_add (find (item_of_product k) (cart_items s)) q)
    = None ->
  add_to_cart k q s = (Raise DatabaseError, s).
Proof.
  intros Hp Hv.
  unfold add_to_cart, bind, query_product_first, query_cart_item_of_product_first.
  rewrite Hp.
  destruct (find (item_of_product k) (cart_items s)) as [c|];
    cbn [quantity_after_add] in Hv.
  - unfold set_quantity_commit. now rewrite Hv.
  - unfold add_cart_item_commit. now rewrite Hv.
Qed.

(** ** The loop of [create_products] *)

(** Whatever the body, and whether or not a commit raises on the way: the
    loop keeps the constraints and never touches the cart. *)
Lemma create_products_loop_keeps (body : list Product.t) :
  forall (acc : list ProductDB.t) (s : Store),
    store_ok s ->
    store_ok (store_of (create_products_loop body acc s)) /\
    cart_items (store_of (create_products_loop body acc s)) = cart_items s.
Proof.
  induction body as [|product rest IH]; intros acc s Hok; [now split|].
  pose proof (add_product_commit_ok (Product.name product) (Product.price product)
                (Product.description product) s Hok) as Hok1.
  cbn [create_products_loop]. unfold bind.
  unfold add_product_commit in *.
  destruct (stored_product (Product.name product) (Product.price product)
              (Product.description product)) as [[[n' p'] d']|]; [|now split].
  unfold refresh_product. cbn [ProductDB.id products].
  match goal with |- context [find ?f (?l ++ [?r])] =>
    destruct (find f (l ++ [r])) as [row|] end.
  - unfold store_of in Hok1. cbn [snd] in Hok1.
    exact (IH (acc ++ [row]) _ Hok1).
  - unfold store_of in *. cbn [snd] in *. now split.
Qed.

(** The loop never raises a 404. *)
Lemma create_products_loop_not_404 (body : list Product.t) :
  forall (acc : list ProductDB.t) (s : Store),
    is_not_found (result_of (create_products_loop body acc s)) = false.
Proof.
  induction body as [|product rest IH]; intros acc s; [reflexivity|].
  cbn [create_products_loop]. unfold bind at 1. unfold add_product_commit.
  destruct (stored_product (Product.name product) (Product.price product)
              (Product.description product)) as [[[n' p'] d']|]; [|reflexivity].
  unfold bind at 1. unfold refresh_product. cbn [ProductDB.id products].
  match goal with |- context [find ?f (?l ++ [?r])] =>
    destruct (find f (l ++ [r])) as [row|] end; [apply IH | reflexivity].
Qed.

(** On a store the database can hold and a body whose values the columns
    hold as given, the loop returns the rows of [rows_from] and appends
    them to the table. *)
Lemma create_products_loop_rows (body : list Product.t) :
  forall (acc : list ProductDB.t) (s : Store),
    store_ok s ->
    Forall stored_as_given body ->
    create_products_loop body acc s =
      (Ok (acc ++ rows_from (products_next_id s) body),
       {| products := products s ++ rows_from (products_next_id s) body;
          cart_items := cart_items s;
          products_next_id := products_next_id s + Z.of_nat (List.length body);
          cart_items_next_id := cart_items_next_id s |}).
Proof.
  induction body as [|product rest IH]; intros acc s Hok Hall.
  - simpl. rewrite !app_nil_r, Z.add_0_r. destruct s; reflexivity.
  - inversion Hall as [|? ? Hgiven Hrest]; subst.
    pose proof (add_product_commit_ok (Product.name product) (Product.price product)
                  (Product.description product) s Hok) as Hok1.
    cbn [create_products_loop rows_from].
    unfold bind at 1. unfold add_product_commit in *.
    rewrite (stored_product_as_given product Hgiven) in *.
    unfold bind at 1. unfold refresh_product. cbn [ProductDB.id products].
    rewrite (find_keyed_app_new ProductDB.id).
    + simpl find. unfold keyed. cbn [ProductDB.id]. rewrite Z.eqb_refl.
      unfold store_of in Hok1. cbn [snd] in Hok1.
      rewrite (IH _ _ Hok1 Hrest).
      cbn [products cart_items products_next_id cart_items_next_id List.length].
      rewrite <- !app_assoc. cbn [app].
      replace (products_next_id s + 1 + Z.of_nat (List.length rest))
        with (products_next_id s + Z.of_nat (S (List.length rest))) by lia.
      reflexivity.
    + apply find_keyed_none. apply not_in_keys_below.
      apply (products_below_next s Hok).
Qed.

(** The loop stops at the first product a column rejects: the rows before
    it are committed, the commit raises, and the rest is never looked at. *)
Lemma create_products_loop_stops (good : list Product.t) (bad : Product.t)
    (rest : list Product.t) :
  stored_product (Product.name bad) (Product.price bad) (Product.description bad)
    = None ->
  forall (acc : list ProductDB.t) (s : Store),
    store_ok s ->
    Forall stored_as_given good ->
    create_products_loop (good ++ bad :: rest) acc s =
      (Raise DatabaseError,
       {| products := products s ++ rows_from (products_next_id s) good;
          cart_items := cart_items s;
          products_next_id := products_next_id s + Z.of_nat (List.length good);
          cart_items_next_id := cart_items_next_id s |}).
Proof.
  intros Hbad. induction good as [|product good IH]; intros acc s Hok Hall.
  - cbn [app create_products_loop rows_from List.length].
    unfold bind at 1. unfold add_product_commit. rewrite Hbad.
    rewrite app_nil_r, Z.add_0_r. destruct s; reflexivity.
  - inversion Hall as [|? ? Hgiven Hrest]; subst.
    pose proof (add_product_commit_ok (Product.name product) (Product.price product)
                  (Product.description product) s Hok) as Hok1.
    cbn [app create_products_loop rows_from].
    unfold bind at 1. unfold add_product_commit in *.
    rewrite (stored_product_as_given product Hgiven) in *.
    unfold bind at 1. unfold refresh_product. cbn [ProductDB.id products].
    rewrite (find_keyed_app_new ProductDB.id).
    + simpl find. unfold keyed. cbn [ProductDB.id]. rewrite Z.eqb_refl.
      unfold store_of in Hok1. cbn [snd] in Hok1.
      rewrite (IH _ _ Hok1 Hrest).
      cbn [products cart_items products_next_id cart_items_next_id List.length].
      rewrite <- !app_assoc. cbn [app].
      replace (products_next_id s + 1 + Z.of_nat (List.length good))
        with (products_next_id s + Z.of_nat (S (List.length good))) by lia.
      reflexivity.
    + apply find_keyed_none. apply not_in_keys_below.
      apply (products_below_next s Hok).
Qed.

(** The rows of [rows_from] carry the fields of their products, and each
    is the row its key finds once they are appended to a table whose keys
    are all below the first of theirs. *)
Lemma rows_from_found (body : list Product.t) :
  forall (next : Z) (table : list ProductDB.t),
    Forall (fun p => ProductDB.id p < next) table ->
    Forall2 (fun product row =>
               same_fields product row /\
               find (has_id (ProductDB.id row)) (table ++ rows_from next body)
                 = Some row)
      body (rows_from next body).
Proof.
  induction body as [|product rest IH]; intros next table Hbelow; [constructor|].
  cbn [rows_from].
  set (row := {| ProductDB.id := next;
                 ProductDB.name := Product.name product;
                 ProductDB.price := Product.price product;
                 ProductDB.description := Product.description product |}).
  constructor.
  - split; [unfold same_fields; simpl; auto|].
    keyed_view. rewrite (find_keyed_app_new ProductDB.id).
    + simpl. unfold keyed. simpl. now rewrite Z.eqb_refl.
    + apply find_keyed_none. now apply not_in_keys_below.
  - assert (Hbelow' : Forall (fun p => ProductDB.id p < next + 1) (table ++ [row])).
    { apply Forall_app. split.
      - eapply Forall_impl; [|exact Hbelow]. simpl. intros; lia.
      - constructor; [simpl; lia | constructor]. }
    specialize (IH (next + 1) (table ++ [row]) Hbelow').
    rewrite <- app_assoc in IH. exact IH.
Qed.

(** ** Responses *)

Lemma respond_store {A} (wrap : A -> response) (m : M A) (s : Store) :
  store_of (respond wrap m s) = store_of (m s).
Proof.
  unfold respond, bind, store_of. destruct (m s) as [[a|e] s']; reflexivity.
Qed.

Lemma respond_model_store {A B} (model : A -> option B) (wrap : B -> response)
    (m : M A) (s : Store) :
  store_of (respond_model model wrap m s) = store_of (m s).
Proof.
  unfold respond_model, bind, store_of.
  destruct (m s) as [[a|e] s']; [|reflexivity].
  now destruct (model a).
Qed.

Lemma respond_not_found {A} (wrap : A -> response) (m : M A) (s : Store) :
  is_not_found (result_of (respond wrap m s)) = is_not_found (result_of (m s)).
Proof.
  unfold respond, bind, result_of. destruct (m s) as [[a|e] s']; reflexivity.
Qed.

Lemma respond_model_not_found {A B} (model : A -> option B) (wrap : B -> response)
    (m : M A) (s : Store) :
  is_not_found (result_of (respond_model model wrap m s))
  = is_not_found (result_of (m s)).
Proof.
  unfold respond_model, bind, result_of.
  destruct (m s) as [[a|e] s']; [|reflexivity].
  now destruct (model a).
Qed.

Lemma respond_result {A} (wrap : A -> response) (m : M A) (s : Store) :
  result_of (respond wrap m s) =
  match result_of (m s) with
  | Ok a => Ok (wrap a)
  | Raise e => Raise e
  end.
Proof.
  unfold respond, bind, result_of. destruct (m s) as [[a|e] s']; reflexivity.
Qed.

Lemma respond_model_result {A B} (model : A -> option B) (wrap : B -> response)
    (m : M A) (s : Store) :
  result_of (respond_model model wrap m s) =
  match result_of (m s) with
  | Ok a =>
      match model a with
      | Some b => Ok (wrap b)
      | None => Raise ResponseValidationError
      end
  | Raise e => Raise e
  end.
Proof.
  unfold respond_model, bind, result_of.
  destruct (m s) as [[a|e] s']; [|reflexivity].
  cbn [fst]. now destruct (model a).
Qed.

(** The store a request leaves is the store its handler leaves. *)
Lemma handle_store (r : request) (s : Store) :
  store_of (handle int_to_float r s) =
  match r with
  | CreateProducts body => store_of (create_products body s)
  | GetProducts => store_of (get_products s)
  | GetProduct k => store_of (get_product k s)
  | DeleteProduct k => store_of (delete_product k s)
  | AddToCart k q => store_of (add_to_cart k q s)
  | GetCartTotalPrice => store_of (get_cart_total_price int_to_float s)
  | RemoveCartItem k => store_of (remove_cart_item k s)
  end.
Proof.
  destruct r; cbn [handle]; first [apply respond_store | apply respond_model_store].
Qed.

(** A request answers 404 exactly when its handler raises one. *)
Lemma handle_not_found (r : request) (s : Store) :
  is_not_found (result_of (handle int_to_float r s)) =
  match r with
  | CreateProducts body => is_not_found (result_of (create_products body s))
  | GetProducts => is_not_found (result_of (get_products s))
  | GetProduct k => is_not_found (result_of (get_product k s))
  | DeleteProduct k => is_not_found (result_of (delete_product k s))
  | AddToCart k q => is_not_found (result_of (add_to_cart k q s))
  | GetCartTotalPrice => is_not_found (result_of (get_cart_total_price int_to_float s))
  | RemoveCartItem k => is_not_found (result_of (remove_cart_item k s))
  end.
Proof.
  destruct r; cbn [handle];
    first [apply respond_not_found | apply respond_model_not_found].
Qed.

Lemma products_model_all (rows : list ProductDB.t) :
  Forall (fun row => ProductDB.description row <> None) rows ->
  exists shown,
    products_model rows = Some shown /\
    Forall2 (fun row p => product_model row = Some p) rows shown.
Proof.
  induction 1 as [|row rest Hrow _ IH].
  - exists []. split; [reflexivity | constructor].
  - destruct IH as (shown & Hshown & Hall).
    destruct (product_model row) as [p|] eqn:Hp.
    + exists (p :: shown). cbn [products_model]. rewrite Hp, Hshown.
      split; [reflexivity | now constructor].
    + unfold product_model in Hp.
      destruct (ProductDB.description row); [discriminate | contradiction].
Qed.

(** ** The loop of [get_cart_total_price] *)

(** The loop of [get_cart_total_price] only reads. *)
Lemma cart_total_loop_store (rows : list CartItemDB.t) :
  forall total lines s,
    store_of (cart_total_loop int_to_float rows total lines s) = s.
Proof.
  induction rows as [|item rest IH]; intros total lines s; [reflexivity|].
  simpl. unfold bind, load_product, query_product_first.
  destruct (find (has_id (CartItemDB.product_id item)) (products s)).
  - apply IH.
  - reflexivity.
Qed.

Lemma get_cart_total_price_store (s : Store) :
  store_of (get_cart_total_price int_to_float s) = s.
Proof.
  unfold get_cart_total_price, bind, query_cart_items_all.
  pose proof (cart_total_loop_store (cart_items s) 0%float [] s) as H.
  unfold store_of in *.
  destruct (cart_total_loop int_to_float (cart_items s) 0%float [] s) as [[a|e] s'];
    simpl in *; assumption.
Qed.

(** The loop never raises a 404: a missing product is an [AttributeError]. *)
Lemma cart_total_loop_not_404 (rows : list CartItemDB.t) :
  forall total lines s,
    is_not_found (result_of (cart_total_loop int_to_float rows total lines s)) = false.
Proof.
  induction rows as [|item rest IH]; intros total lines s; [reflexivity|].
  simpl. unfold bind, load_product, query_product_first.
  destruct (find (has_id (CartItemDB.product_id item)) (products s)).
  - apply IH.
  - reflexivity.
Qed.

(** The loop on rows that all reference a product: it appends one line per
    row, in order, and adds the line totals to the running total. *)
Lemma cart_total_loop_spec (s : Store) (rows : list CartItemDB.t) :
  Forall (fun c => In (CartItemDB.product_id c) (product_ids s)) rows ->
  forall total lines,
  exists new_lines,
    cart_total_loop int_to_float rows total lines s =
      (Ok (fold_left
             (fun acc line => (acc + CartItemResponse.price_as_per_count line)%float)
             new_lines total,
           lines ++ new_lines), s) /\
    Forall2 (line_of int_to_float s) rows new_lines.
Proof.
  induction rows as [|item rest IH]; intros Hfk total lines.
  - exists []. simpl. rewrite app_nil_r. split; [reflexivity | constructor].
  - inversion Hfk as [|? ? Hitem Hrest]; subst.
    apply (find_keyed_in ProductDB.id) in Hitem. destruct Hitem as [product Hp].
    set (line := cart_item_response int_to_float item product).
    destruct (IH Hrest
                (total + CartItemResponse.price_as_per_count line)%float
                (lines ++ [line])) as (new_lines & Hrun & Hall).
    exists (line :: new_lines). split.
    + simpl. unfold bind at 1. unfold load_product, query_product_first.
      keyed_view. rewrite Hp. fold line. simpl in Hrun. rewrite Hrun.
      now rewrite <- app_assoc.
    + constructor; [|assumption].
      exists product. keyed_view. split; [assumption|].
      apply find_keyed_some in Hp. destruct Hp as [_ Hid].
      simpl. auto.
Qed.


Lemma get_cart_total_price_result (s : Store) :
  result_of (get_cart_total_price int_to_float s) =
  match result_of (cart_total_loop int_to_float (cart_items s) 0%float [] s) with
  | Ok acc => Ok {| CartTotalResponse.items := snd acc;
                    CartTotalResponse.total_price := fst acc |}
  | Raise e => Raise e
  end.
Proof.
  unfold get_cart_total_price, bind, query_cart_items_all, result_of.
  destruct (cart_total_loop int_to_float (cart_items s) 0%float [] s)
    as [[acc|e] s']; reflexivity.
Qed.

(** The loop reads the products table and nothing else. *)
Lemma cart_total_loop_reads_products (rows : list CartItemDB.t) (s s' : Store) :
  products s = products s' ->
  forall total lines,
    result_of (cart_total_loop int_to_float rows total lines s) =
    result_of (cart_total_loop int_to_float rows total lines s').
Proof.
  intros Hsame. induction rows as [|item rest IH]; intros total lines;
    [reflexivity|].
  simpl. unfold bind, load_product, query_product_first. rewrite <- Hsame.
  destruct (find (has_id (CartItemDB.product_id item)) (products s));
    [apply IH | reflexivity].
Qed.

(** The loop over two lists of rows is the loop over the second, started
    from what the first left in the accumulators. *)
Lemma cart_total_loop_app (rows more : list CartItemDB.t) (s : Store) :
  forall total lines total1 lines1,
    result_of (cart_total_loop int_to_float rows total lines s) = Ok (total1, lines1) ->
    cart_total_loop int_to_float (rows ++ more) total lines s =
    cart_total_loop int_to_float more total1 lines1 s.
Proof.
  induction rows as [|item rest IH]; intros total lines total1 lines1 Hrun.
  - simpl in Hrun. inversion Hrun. reflexivity.
  - revert Hrun. simpl. unfold bind, load_product, query_product_first.
    destruct (find (has_id (CartItemDB.product_id item)) (products s));
      [apply IH | discriminate].
Qed.

(** ** Every request keeps the constraints and the cart invariant *)

Lemma add_to_cart_store_ok (k q : Z) (s : Store) :
  store_ok s -> store_ok (store_of (add_to_cart k q s)).
Proof.
  intros Hok. rewrite add_to_cart_store.
  destruct (find (has_id k) (products s)) as [p|] eqn:Hp; [|assumption].
  destruct (find (item_of_product k) (cart_items s)).
  - now apply set_quantity_commit_ok.
  - apply add_cart_item_commit_ok; [assumption|].
    apply (find_keyed_some ProductDB.id) in Hp. destruct Hp as [Hin <-].
    now apply in_map.
Qed.

Lemma handle_store_ok (r : request) (s : Store) :
  store_ok s -> store_ok (store_of (handle int_to_float r s)).
Proof.
  intros Hok. rewrite handle_store. destruct r as [body| |k|k|k q| |k].
  - apply (create_products_loop_keeps body [] s Hok).
  - assumption.
  - rewrite get_product_eq. now destruct (find (has_id k) (products s)).
  - rewrite delete_product_eq.
    destruct (find (has_id k) (products s)); [|assumption].
    now apply delete_product_commit_ok.
  - now apply add_to_cart_store_ok.
  - now rewrite get_cart_total_price_store.
  - rewrite remove_cart_item_eq.
    destruct (find (item_has_id k) (cart_items s)) as [c|]; [|assumption].
    unfold store_of at 1. cbn [snd].
    destruct (find (has_id (CartItemDB.product_id c)) (products s)).
    + now apply delete_product_commit_ok, delete_cart_item_commit_ok.
    + now apply delete_cart_item_commit_ok.
Qed.

Lemma handle_one_row (r : request) (s : Store) :
  store_ok s -> one_row_per_product s ->
  one_row_per_product (store_of (handle int_to_float r s)).
Proof.
  intros Hok Hone. rewrite handle_store. destruct r as [body| |k|k|k q| |k].
  - destruct (create_products_loop_keeps body [] s Hok) as [_ Hcart].
    unfold one_row_per_product, cart_product_ids, create_products in *.
    now rewrite Hcart.
  - assumption.
  - rewrite get_product_eq. now destruct (find (has_id k) (products s)).
  - rewrite delete_product_eq.
    destruct (find (has_id k) (products s)); [|assumption].
    now apply delete_product_commit_one_row.
  - rewrite add_to_cart_store.
    destruct (find (has_id k) (products s)); [|assumption].
    destruct (find (item_of_product k) (cart_items s)) eqn:Hc.
    + now apply set_quantity_commit_one_row.
    + now apply add_cart_item_commit_one_row.
  - now rewrite get_cart_total_price_store.
  - rewrite remove_cart_item_eq.
    destruct (find (item_has_id k) (cart_items s)) as [c|]; [|assumption].
    unfold store_of at 1. cbn [snd].
    destruct (find (has_id (CartItemDB.product_id c)) (products s)).
    + now apply delete_product_commit_one_row, delete_cart_item_commit_one_row.
    + now apply delete_cart_item_commit_one_row.
Qed.

Lemma empty_store_ok : store_ok empty_store.
Proof. constructor; simpl; constructor. Qed.

Lemma reachable_store_ok (s : Store) :
  reachable int_to_float s -> store_ok s.
Proof.
  induction 1 as [|r s Hs IH]; [apply empty_store_ok | now apply handle_store_ok].
Qed.

Lemma reachable_run (rs : list request) (s : Store) :
  reachable int_to_float s -> reachable int_to_float (run int_to_float rs s).
Proof.
  revert s. induction rs as [|r rs IH]; intros s Hs; simpl; [assumption|].
  apply IH. now constructor.
Qed.

Lemma reachable_one_row (s : Store) :
  reachable int_to_float s -> one_row_per_product s.
Proof.
  induction 1 as [|r s Hs IH]; [constructor|].
  apply handle_one_row; [now apply reachable_store_ok | assumption].
Qed.

(** ** Properties of the handlers *)

(** C1: when a cart row with the given identifier is in the store,
    [remove_cart_item] returns, the cart has no row with that identifier
    afterwards, the product the row referenced is gone as well, and a
    following [get_product] on that product's id raises the 404
    "Product not found". *)
Theorem remove_cart_item_deletes_row_and_product
    (cart_item_id : Z) (s : Store) (cart_item : CartItemDB.t) :
  find (item_has_id cart_item_id) (cart_items s) = Some cart_item ->
  exists s',
    remove_cart_item cart_item_id s =
      (Ok {| CartItem.product_id := CartItemDB.product_id cart_item;
             CartItem.quantity := 0 |}, s') /\
    find (item_has_id cart_item_id) (cart_items s') = None /\
    find (has_id (CartItemDB.product_id cart_item)) (products s') = None /\
    get_product (CartItemDB.product_id cart_item) s' =
      (Raise (HTTPException 404 "Product not found"), s').
Proof.
  intros Hrow. rewrite remove_cart_item_eq, Hrow. cbv zeta.
  assert (Hid : CartItemDB.id cart_item = cart_item_id).
  { now apply (find_keyed_some CartItemDB.id) in Hrow. }
  eexists. split; [reflexivity|].
  assert (Hgone : forall s',
             find (has_id (CartItemDB.product_id cart_item)) (products s') = None ->
             get_product (CartItemDB.product_id cart_item) s' =
               (Raise (HTTPException 404 "Product not found"), s')).
  { intros s' H. now rewrite get_product_eq, H. }
  destruct (find (has_id (CartItemDB.product_id cart_item)) (products s))
    as [product|] eqn:Hp.
  - assert (Hpid : ProductDB.id product = CartItemDB.product_id cart_item).
    { now apply (find_keyed_some ProductDB.id) in Hp. }
    unfold store_of. cbn [snd delete_product_commit delete_cart_item_commit
                            products cart_items].
    rewrite Hid, Hpid.
    assert (Hprod : find (has_id (CartItemDB.product_id cart_item))
                      (filter (fun p => negb (has_id (CartItemDB.product_id cart_item) p))
                         (products s)) = None)
      by apply (find_keyed_filter_out ProductDB.id).
    split; [apply (find_keyed_filter_twice CartItemDB.id)|].
    split; [assumption|]. apply Hgone. assumption.
  - unfold store_of. cbn [snd delete_cart_item_commit products cart_items].
    rewrite Hid.
    split; [apply (find_keyed_filter_out CartItemDB.id)|].
    split; [assumption|]. apply Hgone. assumption.
Qed.

(** C3, amended: for every existing product that has no cart row yet and
    any two quantities [q1] and [q2] such that the [Integer] column holds
    [q1] and [q1 + q2] as given, [add_to_cart] with [q1] and then with [q2]
    leaves exactly one cart row for the product, with quantity
    [q1 + q2]. *)
Theorem add_to_cart_twice_new_row
    (product_id q1 q2 : Z) (s : Store) (product : ProductDB.t) :
  find (has_id product_id) (products s) = Some product ->
  find (item_of_product product_id) (cart_items s) = None ->
  quantity_stored_as_given q1 ->
  quantity_stored_as_given (q1 + q2) ->
  exists row,
    cart_rows_of product_id
      (store_of (add_to_cart product_id q2
                   (store_of (add_to_cart product_id q1 s)))) = [row] /\
    CartItemDB.product_id row = product_id /\
    CartItemDB.quantity row = q1 + q2.
Proof.
  intros Hp Hc Hq1 Hq12. unfold quantity_stored_as_given in *.
  set (new_row := {| CartItemDB.id := cart_items_next_id s;
                     CartItemDB.product_id := product_id;
                     CartItemDB.quantity := q1 |}).
  assert (H1 : store_of (add_to_cart product_id q1 s)
               = {| products := products s;
                    cart_items := cart_items s ++ [new_row];
                    products_next_id := products_next_id s;
                    cart_items_next_id := cart_items_next_id s + 1 |}).
  { rewrite add_to_cart_store, Hp, Hc. unfold add_cart_item_commit.
    now rewrite Hq1. }
  rewrite H1, add_to_cart_store. cbn [products cart_items].
  rewrite Hp.
  assert (Hfirst : find (item_of_product product_id) (cart_items s ++ [new_row])
                   = Some new_row).
  { rewrite (find_keyed_app_new CartItemDB.product_id) by assumption.
    simpl. unfold keyed. simpl. now rewrite Z.eqb_refl. }
  rewrite Hfirst. unfold set_quantity_commit.
  change (CartItemDB.quantity new_row + q2) with (q1 + q2). rewrite Hq12.
  exists (CartItemDB.with_quantity (q1 + q2) new_row).
  split; [|split; reflexivity].
  unfold cart_rows_of, store_of. cbn [snd cart_items].
  rewrite cart_rows_after_set_quantity.
  assert (Hnil : filter (item_of_product product_id) (cart_items s) = [])
    by exact (filter_keyed_none CartItemDB.product_id product_id _ Hc).
  rewrite filter_app, Hnil.
  simpl. unfold item_of_product, item_has_id. simpl.
  rewrite !Z.eqb_refl. cbn [map]. subst new_row. cbn [CartItemDB.id].
  now rewrite Z.eqb_refl.
Qed.

(** C4, amended: on a store the database can hold, [add_to_cart] raises
    the 404 "Product not found" exactly when no product has the given
    identifier.  When one has and the [Integer] column holds the quantity
    of the cart row after the increment (the requested amount for a new
    row) as given, it returns the product identifier with that quantity;
    when the column rejects that quantity, the commit raises and nothing
    is written. *)
Theorem add_to_cart_not_found_or_quantity (product_id quantity : Z) (s : Store) :
  store_ok s ->
  (result_of (add_to_cart product_id quantity s)
     = Raise (HTTPException 404 "Product not found")
   <-> find (has_id product_id) (products s) = None) /\
  (find (has_id product_id) (products s) <> None ->
   quantity_stored_as_given
     (quantity_after_add
        (find (item_of_product product_id) (cart_items s)) quantity) ->
   result_of (add_to_cart product_id quantity s) =
     Ok {| CartItem.product_id := product_id;
           CartItem.quantity :=
             quantity_after_add
               (find (item_of_product product_id) (cart_items s)) quantity |}) /\
  (find (has_id product_id) (products s) <> None ->
   store_integer
     (quantity_after_add
        (find (item_of_product product_id) (cart_items s)) quantity) = None ->
   add_to_cart product_id quantity s = (Raise DatabaseError, s)).
Proof.
  intros Hok.
  destruct (find (has_id product_id) (products s)) as [product|] eqn:Hp.
  - split; [|split].
    + split; [|discriminate]. intros H404.
      assert (Hnf : is_not_found (result_of (add_to_cart product_id quantity s)) = true)
        by now rewrite H404.
      apply add_to_cart_not_found in Hnf. congruence.
    + intros _ Hq. now apply (add_to_cart_result _ _ _ _ product).
    + intros _ Hq. now apply (add_to_cart_rejected _ _ _ product).
  - split; [|split; congruence].
    split; [reflexivity|]. intros _.
    unfold add_to_cart, bind, query_product_first. now rewrite Hp.
Qed.

(** C5, amended: on a store the database can hold, for a body whose
    products each carry a description and a finite price and have a name,
    price and description that the columns hold as given,
    [POST /products/] answers with one product per product of the body, in
    order, each with the name, price and description sent, and
    [GET /products/{id}] on the identifier of each answers with that same
    product. *)
Theorem create_products_then_get_product (body : list Product.t) (s : Store) :
  store_ok s ->
  Forall (fun product => stored_as_given product /\ presentable product) body ->
  exists created s',
    handle int_to_float (CreateProducts body) s = (Ok (ProductsBody created), s') /\
    Forall2 (fun product shown =>
               Product.name shown = Product.name product /\
               Product.price shown = Product.price product /\
               Product.description shown = Product.description product /\
               handle int_to_float (GetProduct (Product.id shown)) s'
                 = (Ok (ProductBody shown), s'))
      body created.
Proof.
  intros Hok Hbody.
  assert (Hgiven : Forall stored_as_given body).
  { eapply Forall_impl; [|exact Hbody]. now intros product [H _]. }
  pose proof (create_products_loop_rows body [] s Hok Hgiven) as Hrun.
  cbn [app] in Hrun.
  set (rows := rows_from (products_next_id s) body) in *.
  set (s' := {| products := products s ++ rows;
                cart_items := cart_items s;
                products_next_id := products_next_id s + Z.of_nat (List.length body);
                cart_items_next_id := cart_items_next_id s |}) in *.
  pose proof (rows_from_found body (products_next_id s) (products s)
                (products_below_next s Hok)) as Hfound.
  fold rows in Hfound.
  assert (Hdesc : Forall (fun row => ProductDB.description row <> None) rows).
  { rewrite Forall_forall in Hbody. apply Forall_forall. intros row Hrow.
    destruct (Forall2_in_right _ _ _ _ Hfound Hrow)
      as (product & Hin & (_ & _ & Hd) & _).
    rewrite Hd. destruct (Hbody product Hin) as [_ [Hpresent _]]. exact Hpresent. }
  destruct (products_model_all rows Hdesc) as (created & Hcreated & Hshown).
  exists created, s'. split.
  - cbn [handle]. unfold respond_model, bind, create_products.
    rewrite Hrun, Hcreated. reflexivity.
  - eapply Forall2_compose; [|exact Hfound|exact Hshown].
    intros product row shown [(Hn & Hp & Hd) Hfind] Hmodel.
    unfold product_model in Hmodel.
    destruct (ProductDB.description row) as [d|] eqn:Hrowd; [|discriminate].
    inversion Hmodel; subst shown; clear Hmodel. cbn [Product.id Product.name
      Product.price Product.description].
    split; [assumption|]. split; [assumption|]. split; [congruence|].
    cbn [handle]. unfold respond_model, bind.
    rewrite get_product_eq. change (products s') with (products s ++ rows).
    rewrite Hfind. unfold product_model. rewrite Hrowd. reflexivity.
Qed.

(** C6: [delete_product] raises the 404 "Product not found" and leaves
    the store alone when no product has the identifier; otherwise it
    returns its message and a following [get_product] on the same
    identifier raises the 404. *)
Theorem delete_product_then_get_product (product_id : Z) (s : Store) :
  match find (has_id product_id) (products s) with
  | None =>
      delete_product product_id s =
        (Raise (HTTPException 404 "Product not found"), s)
  | Some _ =>
      exists s',
        delete_product product_id s = (Ok [("message", "Product deleted")], s') /\
        get_product product_id s' =
          (Raise (HTTPException 404 "Product not found"), s')
  end.
Proof.
  rewrite delete_product_eq.
  destruct (find (has_id product_id) (products s)) as [product|] eqn:Hp;
    [|reflexivity].
  eexists. split; [reflexivity|].
  rewrite get_product_eq. unfold store_of. cbn [snd delete_product_commit products].
  apply (find_keyed_some ProductDB.id) in Hp. destruct Hp as [_ ->].
  now rewrite (find_keyed_filter_out ProductDB.id).
Qed.

(** C8: [remove_cart_item] raises the 404 "Cart item not found" when no
    cart row has the identifier, and otherwise returns the row's product
    identifier with quantity 0. *)
Theorem remove_cart_item_not_found_or_zero (cart_item_id : Z) (s : Store) :
  match find (item_has_id cart_item_id) (cart_items s) with
  | None =>
      remove_cart_item cart_item_id s =
        (Raise (HTTPException 404 "Cart item not found"), s)
  | Some cart_item =>
      result_of (remove_cart_item cart_item_id s) =
        Ok {| CartItem.product_id := CartItemDB.product_id cart_item;
              CartItem.quantity := 0 |}
  end.
Proof.
  rewrite remove_cart_item_eq.
  destruct (find (item_has_id cart_item_id) (cart_items s)); reflexivity.
Qed.


(** C2: on a store the database can hold, [get_cart_total_price] returns
    one line per cart row, in order; a line carries the row's product id,
    the product's name, the row's quantity, the product's current price and
    the quantity times that price; the total is the sum of the lines'
    totals, accumulated from [0.0] in row order.  The store is left as it
    was. *)
Theorem get_cart_total_price_lines_and_sum (s : Store) :
  store_ok s ->
  exists lines,
    get_cart_total_price int_to_float s =
      (Ok {| CartTotalResponse.items := lines;
             CartTotalResponse.total_price := sum_of_lines lines |}, s) /\
    Forall2 (line_of int_to_float s) (cart_items s) lines.
Proof.
  intros Hok.
  destruct (cart_total_loop_spec s (cart_items s)
              (cart_items_fk s Hok) 0%float [])
    as (lines & Hrun & Hall).
  exists lines. split; [|assumption].
  unfold get_cart_total_price, bind, query_cart_items_all.
  now rewrite Hrun.
Qed.

(** C7: a store reached from the empty one by any sequence of requests
    has at most one cart row per product identifier, and so has the store
    that [add_to_cart] then leaves. *)
Theorem reachable_one_row_per_product (s : Store) :
  reachable int_to_float s ->
  one_row_per_product s /\
  forall product_id quantity,
    one_row_per_product (store_of (add_to_cart product_id quantity s)).
Proof.
  intros Hs. split; [now apply reachable_one_row|].
  intros product_id quantity.
  pose proof (handle_store (AddToCart product_id quantity) s) as Hstore.
  cbn beta iota in Hstore. rewrite <- Hstore.
  apply reachable_one_row.
  exact (reachable_step int_to_float (AddToCart product_id quantity) s Hs).
Qed.


(** C9: with no cart rows, [get_cart_total_price] returns an empty list
    of items and the total [0.0], and leaves the store as it was. *)
Theorem get_cart_total_price_empty_cart (s : Store) :
  cart_items s = [] ->
  get_cart_total_price int_to_float s =
    (Ok {| CartTotalResponse.items := [];
           CartTotalResponse.total_price := 0%float |}, s).
Proof.
  intros Hempty.
  unfold get_cart_total_price, bind, query_cart_items_all.
  now rewrite Hempty.
Qed.


(** C10: whatever the request, a response that is a 404 comes with the
    store exactly as it was before the request. *)
Theorem not_found_leaves_store_unchanged (r : request) (s : Store) :
  is_not_found (result_of (handle int_to_float r s)) = true ->
  store_of (handle int_to_float r s) = s.
Proof.
  rewrite handle_not_found, handle_store. destruct r as [body| |k|k|k q| |k].
  - unfold create_products. rewrite create_products_loop_not_404. discriminate.
  - discriminate.
  - rewrite get_product_eq.
    destruct (find (has_id k) (products s)); [discriminate | reflexivity].
  - rewrite delete_product_eq.
    destruct (find (has_id k) (products s)); [discriminate | reflexivity].
  - intros H404. apply add_to_cart_not_found in H404.
    now rewrite add_to_cart_store, H404.
  - intros _. apply get_cart_total_price_store.
  - rewrite remove_cart_item_eq.
    destruct (find (item_has_id k) (cart_items s)); [discriminate | reflexivity].
Qed.

(** ** Creating and listing products *)

(** X1: on a store the database can hold and for a body whose names,
    prices and descriptions the columns hold as given, [create_products]
    gives the products of the body consecutive keys from the table's next
    key, in the order of the body and whatever [id] the request carried; it
    returns these rows, appends them to the table, advances the key counter
    by the length of the body and leaves the cart alone. *)
Theorem create_products_writes_rows_from (body : list Product.t) (s : Store) :
  store_ok s ->
  Forall stored_as_given body ->
  create_products body s =
    (Ok (rows_from (products_next_id s) body),
     {| products := products s ++ rows_from (products_next_id s) body;
        cart_items := cart_items s;
        products_next_id := products_next_id s + Z.of_nat (List.length body);
        cart_items_next_id := cart_items_next_id s |}).
Proof.
  intros Hok Hall. unfold create_products.
  now rewrite (create_products_loop_rows body [] s Hok Hall).
Qed.

(** X15: [create_products] commits product by product.  When the columns
    hold the first products of a body as given and reject the next one,
    the call raises what that commit raised, the rows of the first
    products stay in the table, and the rest of the body is not written. *)
Theorem create_products_stops_at_rejected
    (good : list Product.t) (bad : Product.t) (rest : list Product.t) (s : Store) :
  store_ok s ->
  Forall stored_as_given good ->
  stored_product (Product.name bad) (Product.price bad) (Product.description bad)
    = None ->
  create_products (good ++ bad :: rest) s =
    (Raise DatabaseError,
     {| products := products s ++ rows_from (products_next_id s) good;
        cart_items := cart_items s;
        products_next_id := products_next_id s + Z.of_nat (List.length good);
        cart_items_next_id := cart_items_next_id s |}).
Proof.
  intros Hok Hall Hbad. unfold create_products.
  now apply create_products_loop_stops.
Qed.


(** X2: on a store the database can hold, the rows [get_products] lists
    are exactly the rows [get_product] returns for their own key. *)
Theorem get_products_lists_what_get_product_finds (s : Store) :
  store_ok s ->
  exists listed,
    get_products s = (Ok listed, s) /\
    forall product,
      In product listed <->
      get_product (ProductDB.id product) s = (Ok product, s).
Proof.
  intros Hok. exists (products s). split; [reflexivity|].
  intros product. rewrite get_product_eq. split.
  - intros Hin. keyed_view.
    now rewrite (find_keyed_unique ProductDB.id _ _ (products_pk s Hok) Hin).
  - destruct (find (has_id (ProductDB.id product)) (products s)) as [p|] eqn:Hp;
      [|discriminate].
    intros H. inversion H; subst p.
    now apply (find_keyed_some ProductDB.id) in Hp.
Qed.

(** ** Deleting products *)

(** X3: [delete_product] on one identifier does not change what
    [get_product] answers for any other identifier, whether the delete
    went through or raised. *)
Theorem delete_product_keeps_other_products (product_id other : Z) (s : Store) :
  other <> product_id ->
  result_of (get_product other (store_of (delete_product product_id s))) =
  result_of (get_product other s).
Proof.
  intros Hne. rewrite delete_product_eq.
  destruct (find (has_id product_id) (products s)) as [product|] eqn:Hp;
    [|reflexivity].
  rewrite !get_product_eq.
  unfold store_of. cbn [snd delete_product_commit products].
  apply (find_keyed_some ProductDB.id) in Hp. destruct Hp as [_ ->].
  pose proof (find_keyed_filter_other ProductDB.id other product_id
                (products s) Hne) as Hfind.
  unfold keyed in Hfind. unfold has_id. rewrite Hfind.
  now destruct (find (fun p => ProductDB.id p =? other) (products s)).
Qed.

(** X4: on a store the database can hold, a successful [delete_product]
    removes exactly the cart rows that reference the product, so that
    [remove_cart_item] on such a row then raises the 404
    "Cart item not found". *)
Theorem delete_product_cascades_to_cart
    (product_id : Z) (s : Store) (cart_item : CartItemDB.t) :
  store_ok s ->
  In cart_item (cart_items s) ->
  CartItemDB.product_id cart_item = product_id ->
  let s' := store_of (delete_product product_id s) in
  cart_items s' = filter (fun c => negb (item_of_product product_id c)) (cart_items s) /\
  remove_cart_item (CartItemDB.id cart_item) s' = (Raise cart_item_not_found, s').
Proof.
  intros Hok Hin Hpid s'.
  assert (Hfk : In product_id (product_ids s)).
  { pose proof (cart_items_fk s Hok) as Hfk. rewrite Forall_forall in Hfk.
    rewrite <- Hpid. now apply Hfk. }
  apply (find_keyed_in ProductDB.id) in Hfk. destruct Hfk as [product Hp].
  assert (Hs' : s' = store_of (delete_product_commit product s)).
  { unfold s'. rewrite delete_product_eq. keyed_view. now rewrite Hp. }
  assert (Hkey : ProductDB.id product = product_id)
    by now apply (find_keyed_some ProductDB.id) in Hp.
  assert (Hcart : cart_items s' =
                  filter (fun c => negb (item_of_product product_id c)) (cart_items s)).
  { rewrite Hs'. unfold store_of. cbn [snd delete_product_commit cart_items].
    now rewrite Hkey. }
  split; [exact Hcart|].
  rewrite remove_cart_item_eq, Hcart.
  assert (Hnone : find (item_has_id (CartItemDB.id cart_item))
                    (filter (fun c => negb (item_of_product product_id c)) (cart_items s))
                  = None).
  { keyed_view. apply find_keyed_none. intros Hmem.
    apply in_map_iff in Hmem. destruct Hmem as [c [Eid Hc]].
    apply filter_In in Hc. destruct Hc as [Hc Hkeep].
    assert (c = cart_item)
      by (eapply (keyed_injective CartItemDB.id); eauto using cart_items_pk).
    subst c. unfold keyed in Hkeep. rewrite Hpid, Z.eqb_refl in Hkeep.
    discriminate. }
  now rewrite Hnone.
Qed.

(** ** Removing cart items *)


(** X5: on a store the database can hold, [remove_cart_item] on a cart
    row that is there leaves the store exactly as [delete_product] on the
    row's product leaves it. *)
Theorem remove_cart_item_is_delete_product
    (cart_item_id : Z) (s : Store) (cart_item : CartItemDB.t) :
  store_ok s ->
  find (item_has_id cart_item_id) (cart_items s) = Some cart_item ->
  store_of (remove_cart_item cart_item_id s) =
  store_of (delete_product (CartItemDB.product_id cart_item) s).
Proof.
  intros Hok Hrow.
  apply (find_keyed_some CartItemDB.id) in Hrow as Hrow'.
  destruct Hrow' as [Hin Hid].
  assert (Hfk : In (CartItemDB.product_id cart_item) (product_ids s)).
  { pose proof (cart_items_fk s Hok) as Hfk. rewrite Forall_forall in Hfk.
    now apply Hfk. }
  apply (find_keyed_in ProductDB.id) in Hfk. destruct Hfk as [product Hp].
  rewrite remove_cart_item_eq, Hrow, delete_product_eq. keyed_view. rewrite Hp.
  unfold store_of. cbn [snd delete_product_commit delete_cart_item_commit
                          products cart_items products_next_id cart_items_next_id].
  f_equal.
  apply filter_filter_absorb. intros c Hc Hkeep.
  apply (find_keyed_some ProductDB.id) in Hp. destruct Hp as [_ Hkey].
  unfold item_has_id, item_of_product in *.
  destruct (Z.eqb_spec (CartItemDB.id c) (CartItemDB.id cart_item)) as [E|E];
    [|reflexivity].
  assert (c = cart_item)
    by (eapply (keyed_injective CartItemDB.id); eauto using cart_items_pk).
  subst c. rewrite Hkey, Z.eqb_refl in Hkeep. discriminate.
Qed.


(** X6: once [remove_cart_item] went through for an identifier, a second
    [remove_cart_item] on it raises the 404 "Cart item not found" and
    leaves the store as the first one left it. *)
Theorem remove_cart_item_twice_not_found
    (cart_item_id : Z) (s : Store) (cart_item : CartItemDB.t) :
  find (item_has_id cart_item_id) (cart_items s) = Some cart_item ->
  let s' := store_of (remove_cart_item cart_item_id s) in
  remove_cart_item cart_item_id s' = (Raise cart_item_not_found, s').
Proof.
  intros Hrow s'.
  assert (Hid : CartItemDB.id cart_item = cart_item_id)
    by now apply (find_keyed_some CartItemDB.id) in Hrow.
  assert (Hnone : find (item_has_id cart_item_id) (cart_items s') = None).
  { unfold s'. rewrite remove_cart_item_eq, Hrow. unfold store_of. cbn [snd].
    destruct (find (has_id (CartItemDB.product_id cart_item)) (products s));
      cbn [delete_product_commit delete_cart_item_commit snd cart_items];
      rewrite Hid.
    - apply (find_keyed_filter_twice CartItemDB.id).
    - apply (find_keyed_filter_out CartItemDB.id). }
  now rewrite remove_cart_item_eq, Hnone.
Qed.

(** ** Adding to the cart *)

(** X7: on a store the database can hold, [add_to_cart] for one product
    leaves the products table and the cart rows of every other product as
    they were, whatever the quantity and whether or not it raised. *)
Theorem add_to_cart_keeps_the_rest (product_id quantity other : Z) (s : Store) :
  store_ok s ->
  other <> product_id ->
  let s' := store_of (add_to_cart product_id quantity s) in
  products s' = products s /\
  cart_rows_of other s' = cart_rows_of other s.
Proof.
  intros Hok Hne s'. unfold s'. rewrite add_to_cart_store.
  destruct (find (has_id product_id) (products s)) as [product|]; [|now split].
  destruct (find (item_of_product product_id) (cart_items s)) as [c|] eqn:Hc.
  - unfold set_quantity_commit.
    destruct (store_integer (CartItemDB.quantity c + quantity)) as [q'|];
      [|now split].
    split; [reflexivity|].
    unfold cart_rows_of, store_of. cbn [snd cart_items].
    rewrite cart_rows_after_set_quantity.
    rewrite <- (map_id (filter (item_of_product other) (cart_items s))) at 2.
    apply map_ext_in. intros x Hx. apply filter_In in Hx. destruct Hx as [Hx Hother].
    unfold item_has_id. destruct (Z.eqb_spec (CartItemDB.id x) (CartItemDB.id c)) as [E|E];
      [|reflexivity].
    apply (find_keyed_some CartItemDB.product_id) in Hc. destruct Hc as [Hcin Hck].
    assert (x = c)
      by (eapply (keyed_injective CartItemDB.id); eauto using cart_items_pk).
    subst x. unfold item_of_product in Hother. apply Z.eqb_eq in Hother. congruence.
  - unfold add_cart_item_commit.
    destruct (store_integer quantity) as [q'|]; [|now split].
    split; [reflexivity|].
    unfold cart_rows_of, store_of. cbn [snd cart_items].
    rewrite filter_app. cbn [filter]. unfold item_of_product at 2.
    cbn [CartItemDB.product_id].
    destruct (Z.eqb_spec product_id other) as [E|E]; [congruence|].
    now rewrite app_nil_r.
Qed.

(** The first row of a product after a first [add_to_cart] that the column
    held as given. *)
Lemma find_after_first_add (k q : Z) (s : Store) (product : ProductDB.t) :
  find (has_id k) (products s) = Some product ->
  quantity_stored_as_given
    (quantity_after_add (find (item_of_product k) (cart_items s)) q) ->
  find (item_of_product k) (cart_items (store_of (add_to_cart k q s))) =
  Some match find (item_of_product k) (cart_items s) with
       | Some c => CartItemDB.with_quantity (CartItemDB.quantity c + q) c
       | None => {| CartItemDB.id := cart_items_next_id s;
                    CartItemDB.product_id := k; CartItemDB.quantity := q |}
       end.
Proof.
  intros Hp Hq. unfold quantity_stored_as_given in Hq.
  rewrite add_to_cart_store, Hp.
  destruct (find (item_of_product k) (cart_items s)) as [c|] eqn:Hc;
    cbn [quantity_after_add] in Hq.
  - unfold set_quantity_commit. rewrite Hq.
    unfold store_of. cbn [snd cart_items].
    rewrite find_map_same_test.
    + rewrite Hc. cbn [option_map]. unfold item_has_id. now rewrite Z.eqb_refl.
    + intros x. now destruct (item_has_id (CartItemDB.id c) x).
  - unfold add_cart_item_commit. rewrite Hq.
    unfold store_of. cbn [snd cart_items].
    rewrite (find_keyed_app_new CartItemDB.product_id) by assumption.
    simpl. unfold keyed. simpl. now rewrite Z.eqb_refl.
Qed.

(** X8: on a store the database can hold, when the [Integer] column holds
    as given both the quantity a first [add_to_cart] with [q1] writes and
    the quantity one [add_to_cart] with [q1 + q2] writes, the first call
    followed by [add_to_cart] with [q2] for the same product leaves the
    store that the one call leaves, and answers what it answers. *)
Theorem add_to_cart_adds_up (product_id q1 q2 : Z) (s : Store) :
  store_ok s ->
  quantity_stored_as_given
    (quantity_after_add (find (item_of_product product_id) (cart_items s)) q1) ->
  quantity_stored_as_given
    (quantity_after_add (find (item_of_product product_id) (cart_items s))
       (q1 + q2)) ->
  add_to_cart product_id q2 (store_of (add_to_cart product_id q1 s)) =
  add_to_cart product_id (q1 + q2) s.
Proof.
  intros Hok Hq1 Hq12.
  assert (Hok1 : store_ok (store_of (add_to_cart product_id q1 s)))
    by now apply add_to_cart_store_ok.
  destruct (find (has_id product_id) (products s)) as [product|] eqn:Hp.
  - (* the product is there: compare results and stores *)
    pose proof (find_after_first_add product_id q1 s product Hp Hq1) as Hrow1.
    unfold quantity_stored_as_given in Hq1, Hq12.
    assert (Hprod : products (store_of (add_to_cart product_id q1 s)) = products s).
    { rewrite add_to_cart_store, Hp.
      destruct (find (item_of_product product_id) (cart_items s));
        [unfold set_quantity_commit | unfold add_cart_item_commit];
        match goal with |- context [store_integer ?q] =>
          destruct (store_integer q) end; reflexivity. }
    assert (Hp1 : find (has_id product_id)
                    (products (store_of (add_to_cart product_id q1 s))) = Some product)
      by now rewrite Hprod.
    assert (Hsum : quantity_after_add
                     (find (item_of_product product_id)
                        (cart_items (store_of (add_to_cart product_id q1 s)))) q2
                   = quantity_after_add
                       (find (item_of_product product_id) (cart_items s)) (q1 + q2)).
    { rewrite Hrow1.
      destruct (find (item_of_product product_id) (cart_items s)); simpl; lia. }
    apply injective_projections.
    + change (result_of (add_to_cart product_id q2
                           (store_of (add_to_cart product_id q1 s))) =
              result_of (add_to_cart product_id (q1 + q2) s)).
      rewrite (add_to_cart_result _ _ _ _ product Hok Hp Hq12).
      apply (add_to_cart_result _ _ _ _ product Hok1 Hp1). now rewrite Hsum.
    + change (store_of (add_to_cart product_id q2
                          (store_of (add_to_cart product_id q1 s))) =
              store_of (add_to_cart product_id (q1 + q2) s)).
      rewrite (add_to_cart_store product_id q2), Hp1, Hrow1.
      rewrite !add_to_cart_store, Hp.
      destruct (find (item_of_product product_id) (cart_items s)) as [c|] eqn:Hc;
        cbn [quantity_after_add] in Hq1, Hq12.
      * unfold set_quantity_commit.
        change (CartItemDB.quantity
                  (CartItemDB.with_quantity (CartItemDB.quantity c + q1) c) + q2)
          with (CartItemDB.quantity c + q1 + q2).
        replace (CartItemDB.quantity c + q1 + q2)
          with (CartItemDB.quantity c + (q1 + q2)) by lia.
        rewrite Hq1, Hq12.
        unfold store_of. cbn [snd products cart_items
                                products_next_id cart_items_next_id].
        f_equal. rewrite map_map. apply map_ext. intros x.
        change (CartItemDB.id (CartItemDB.with_quantity (CartItemDB.quantity c + q1) c))
          with (CartItemDB.id c).
        destruct (item_has_id (CartItemDB.id c) x) eqn:Ex.
        -- change (item_has_id (CartItemDB.id c)
                     (CartItemDB.with_quantity (CartItemDB.quantity c + q1) x))
             with (item_has_id (CartItemDB.id c) x).
           now rewrite Ex.
        -- now rewrite Ex.
      * unfold set_quantity_commit, add_cart_item_commit.
        cbn [CartItemDB.quantity CartItemDB.id]. rewrite Hq1, Hq12.
        unfold store_of. cbn [snd products cart_items
                                products_next_id cart_items_next_id].
        f_equal. rewrite map_app. f_equal.
        -- apply map_set_quantity_absent. apply not_in_keys_below.
           apply (cart_items_below_next s Hok).
        -- cbn [map]. unfold item_has_id. cbn [CartItemDB.id].
           now rewrite Z.eqb_refl.
  - (* no such product: both calls raise and write nothing *)
    assert (H1 : add_to_cart product_id q1 s = (Raise (not_found "Product not found"), s)).
    { unfold add_to_cart, bind, query_product_first. now rewrite Hp. }
    rewrite H1. unfold store_of. cbn [snd].
    unfold add_to_cart, bind, query_product_first. now rewrite Hp.
Qed.

(** ** The application as a whole *)

(** X9: a request on a [GET] route never writes: the store after
    [get_products], [get_product] or [get_cart_total_price] is the store
    before, whether the handler returned or raised. *)
Theorem get_requests_leave_store_unchanged (r : request) (s : Store) :
  route_method r = GET ->
  store_of (handle int_to_float r s) = s.
Proof.
  rewrite handle_store.
  destruct r as [body| |k|k|k q| |k]; cbn [route_method];
    try discriminate; intros _.
  - reflexivity.
  - rewrite get_product_eq. now destruct (find (has_id k) (products s)).
  - apply get_cart_total_price_store.
Qed.

(** X10: on a store the database can hold, no request fails in a lookup
    of its handler: [get_cart_total_price] meets no cart row without its
    product, and every [db.refresh] finds the row just written. *)
Theorem handlers_never_fail_a_lookup (r : request) (s : Store) :
  store_ok s ->
  lookup_failed (result_of (handle int_to_float r s)) = false.
Proof.
  intros Hok. destruct r as [body| |k|k|k q| |k]; cbn [handle];
    rewrite ?respond_result, ?respond_model_result.
  - assert (Hloop : forall body acc s0, store_ok s0 ->
              lookup_failed (result_of (create_products_loop body acc s0)) = false).
    { clear. induction body as [|product rest IH]; intros acc s0 Hok0; [reflexivity|].
      pose proof (add_product_commit_ok (Product.name product) (Product.price product)
                    (Product.description product) s0 Hok0) as Hok1.
      cbn [create_products_loop]. unfold bind at 1. unfold add_product_commit in *.
      destruct (stored_product (Product.name product) (Product.price product)
                  (Product.description product)) as [[[n' p'] d']|]; [|reflexivity].
      unfold bind at 1. unfold refresh_product. cbn [ProductDB.id products].
      rewrite (find_keyed_app_new ProductDB.id).
      - simpl find. unfold keyed. cbn [ProductDB.id]. rewrite Z.eqb_refl.
        apply IH. exact Hok1.
      - apply find_keyed_none. apply not_in_keys_below.
        apply (products_below_next s0 Hok0). }
    specialize (Hloop body [] s Hok). unfold create_products.
    destruct (result_of (create_products_loop body [] s)) as [rows|e];
      [now destruct (products_model rows) | exact Hloop].
  - cbn. now destruct (products_model (products s)).
  - rewrite get_product_eq.
    destruct (find (has_id k) (products s)) as [p|]; [|reflexivity].
    cbn. now destruct (product_model p).
  - rewrite delete_product_eq.
    now destruct (find (has_id k) (products s)).
  - destruct (find (has_id k) (products s)) as [product|] eqn:Hp.
    + destruct (store_integer
                  (quantity_after_add (find (item_of_product k) (cart_items s)) q))
        as [v|] eqn:Hv.
      * now rewrite (add_to_cart_result k q v s product Hok Hp Hv).
      * now rewrite (add_to_cart_rejected k q s product Hp Hv).
    + unfold add_to_cart, bind, query_product_first. now rewrite Hp.
  - rewrite get_cart_total_price_result.
    destruct (cart_total_loop_spec s (cart_items s)
                (cart_items_fk s Hok) 0%float []) as (lines & Hrun & _).
    now rewrite Hrun.
  - rewrite remove_cart_item_eq.
    now destruct (find (item_has_id k) (cart_items s)).
Qed.

(** X11: in a store reached from the empty one by any sequence of
    requests, every cart row references a product that [get_product]
    returns. *)
Theorem reachable_cart_rows_have_products (s : Store) (cart_item : CartItemDB.t) :
  reachable int_to_float s ->
  In cart_item (cart_items s) ->
  exists product,
    get_product (CartItemDB.product_id cart_item) s = (Ok product, s).
Proof.
  intros Hs Hin.
  pose proof (cart_items_fk s (reachable_store_ok s Hs)) as Hfk.
  rewrite Forall_forall in Hfk. specialize (Hfk cart_item Hin).
  apply (find_keyed_in ProductDB.id) in Hfk. destruct Hfk as [product Hp].
  exists product. rewrite get_product_eq. keyed_view. now rewrite Hp.
Qed.

(** X12: in a store reached from the empty one, [get_cart_total_price]
    returns; its items carry the product ids of the cart rows, in order,
    and no product id twice. *)
Theorem reachable_cart_total_lists_each_product_once (s : Store) :
  reachable int_to_float s ->
  exists total,
    get_cart_total_price int_to_float s = (Ok total, s) /\
    map CartItemResponse.product_id (CartTotalResponse.items total)
      = map CartItemDB.product_id (cart_items s) /\
    NoDup (map CartItemResponse.product_id (CartTotalResponse.items total)).
Proof.
  intros Hs.
  pose proof (reachable_store_ok s Hs) as Hok.
  destruct (cart_total_loop_spec s (cart_items s)
              (cart_items_fk s Hok) 0%float []) as (lines & Hrun & Hall).
  assert (Hids : map CartItemResponse.product_id lines
                 = map CartItemDB.product_id (cart_items s)).
  { clear Hrun. induction Hall as [|item line rows lines' Hline _ IH];
      [reflexivity|].
    destruct Hline as (product & _ & Hpid & _). simpl. now rewrite Hpid, IH. }
  eexists. split; [|split].
  - unfold get_cart_total_price, bind, query_cart_items_all.
    rewrite Hrun. reflexivity.
  - exact Hids.
  - cbn [CartTotalResponse.items snd]. cbn [app]. rewrite Hids.
    apply (reachable_one_row s Hs).
Qed.


(** X13: when the cart total of a store is returned, a product of that
    store has no cart row and the [Integer] column holds the quantity added
    as given, the cart total after [add_to_cart] for that product has the
    old items followed by one line for the product, and the old total plus
    that line's total. *)
Theorem add_to_cart_then_total
    (product_id quantity : Z) (s : Store) (product : ProductDB.t)
    (old : CartTotalResponse.t) :
  find (has_id product_id) (products s) = Some product ->
  find (item_of_product product_id) (cart_items s) = None ->
  quantity_stored_as_given quantity ->
  result_of (get_cart_total_price int_to_float s) = Ok old ->
  result_of (get_cart_total_price int_to_float
               (store_of (add_to_cart product_id quantity s))) =
  Ok {| CartTotalResponse.items :=
          CartTotalResponse.items old ++
          [{| CartItemResponse.product_id := product_id;
              CartItemResponse.product_name := ProductDB.name product;
              CartItemResponse.quantity := quantity;
              CartItemResponse.price_per_unit := ProductDB.price product;
              CartItemResponse.price_as_per_count :=
                (int_to_float quantity * ProductDB.price product)%float |}];
        CartTotalResponse.total_price :=
          (CartTotalResponse.total_price old
           + int_to_float quantity * ProductDB.price product)%float |}.
Proof.
  intros Hp Hc Hq Hold. unfold quantity_stored_as_given in Hq.
  assert (Hkey : ProductDB.id product = product_id)
    by now apply (find_keyed_some ProductDB.id) in Hp.
  rewrite get_cart_total_price_result in Hold.
  destruct (result_of (cart_total_loop int_to_float (cart_items s) 0%float [] s))
    as [[total lines]|e] eqn:Hloop; [|discriminate].
  inversion Hold; subst old; clear Hold. cbn [fst snd] in *.
  rewrite get_cart_total_price_result, add_to_cart_store, Hp, Hc.
  unfold add_cart_item_commit. rewrite Hq.
  unfold store_of at 1 2. cbn [snd cart_items].
  rewrite <- (cart_total_loop_reads_products _ s) by reflexivity.
  unfold result_of at 1.
  rewrite (cart_total_loop_app _ _ s _ _ total lines Hloop).
  cbn [cart_total_loop]. unfold bind, load_product, query_product_first.
  cbn [CartItemDB.product_id CartItemDB.quantity]. rewrite Hp.
  unfold ret. cbn [fst snd]. unfold cart_item_response.
  cbn [CartItemDB.quantity]. now rewrite Hkey.
Qed.

(** X14: [add_to_cart] never takes a row out of the cart: every cart row
    is still there afterwards under its key and for its product, whatever
    the quantity added, zero and negative ones included. *)
Theorem add_to_cart_never_removes_a_row
    (product_id quantity : Z) (s : Store) (cart_item : CartItemDB.t) :
  In cart_item (cart_items s) ->
  exists kept,
    In kept (cart_items (store_of (add_to_cart product_id quantity s))) /\
    CartItemDB.id kept = CartItemDB.id cart_item /\
    CartItemDB.product_id kept = CartItemDB.product_id cart_item.
Proof.
  intros Hin. rewrite add_to_cart_store.
  destruct (find (has_id product_id) (products s)); [|now exists cart_item].
  destruct (find (item_of_product product_id) (cart_items s)) as [c|].
  - unfold set_quantity_commit.
    destruct (store_integer (CartItemDB.quantity c + quantity)) as [q'|];
      [|now exists cart_item].
    unfold store_of. cbn [snd cart_items].
    eexists. split; [apply in_map; exact Hin|].
    now destruct (item_has_id (CartItemDB.id c) cart_item).
  - unfold add_cart_item_commit.
    destruct (store_integer quantity) as [q'|]; [|now exists cart_item].
    unfold store_of. cbn [snd cart_items].
    exists cart_item. split; [apply in_or_app; now left | now split].
Qed.

End Properties.

(** ** The handlers on sample data *)

#[local] Existing Instance sample_columns.

(** The scenario of the specification: a widget at 9.99 gets id 1; two of
    them in the cart total 19.98; removing the cart row takes the product
    with it. *)
Example widget_scenario :
  product_ids widget_store = [1] /\
  cart_items widget_in_cart =
    [{| CartItemDB.id := 1; CartItemDB.product_id := 1; CartItemDB.quantity := 2 |}] /\
  result_of (get_cart_total_price float_of_Z widget_in_cart) =
    Ok {| CartTotalResponse.items :=
            [{| CartItemResponse.product_id := 1;
                CartItemResponse.product_name := "Widget";
                CartItemResponse.quantity := 2;
                CartItemResponse.price_per_unit := 0x1.3fae147ae147bp+3%float;
                CartItemResponse.price_as_per_count := 0x1.3fae147ae147bp+4%float |}];
          CartTotalResponse.total_price := 0x1.3fae147ae147bp+4%float |} /\
  result_of (get_product 1 (store_of (remove_cart_item 1 widget_in_cart))) =
    Raise (HTTPException 404 "Product not found").
Proof. repeat split; vm_compute; reflexivity. Qed.

(** Adding 2 and then 3 of a product that is not in the cart yet. *)
Example add_two_then_three :
  cart_items (run float_of_Z [AddToCart 1 2; AddToCart 1 3] widget_store) =
    [{| CartItemDB.id := 1; CartItemDB.product_id := 1; CartItemDB.quantity := 5 |}].
Proof. vm_compute. reflexivity. Qed.

(** A cart row whose product is gone, which the foreign key rules out,
    would make the total fail with an [AttributeError]. *)
Example dangling_cart_row :
  result_of (get_cart_total_price float_of_Z
               {| products := [];
                  cart_items := [{| CartItemDB.id := 1; CartItemDB.product_id := 1;
                                    CartItemDB.quantity := 2 |}];
                  products_next_id := 2; cart_items_next_id := 2 |})
  = Raise AttributeError.
Proof. vm_compute. reflexivity. Qed.

(** Deleting a product takes its cart row along. *)
Example delete_product_cascades :
  store_of (delete_product 1 widget_in_cart) =
    {| products := []; cart_items := [];
       products_next_id := 2; cart_items_next_id := 2 |}.
Proof. vm_compute. reflexivity. Qed.


(** A price that is not a number is rejected by the [products] table, so
    [create_products] raises; the widget sent before it is committed. *)
Example priceless_after_widget :
  create_products [widget; priceless] empty_store =
    (Raise DatabaseError, widget_store).
Proof. vm_compute. reflexivity. Qed.

(** A quantity beyond any fixed-width integer column: the commit raises
    and the cart is as it was. *)
Example quantity_out_of_range :
  add_to_cart 1 (2 ^ 63) widget_in_cart = (Raise DatabaseError, widget_in_cart).
Proof. vm_compute. reflexivity. Qed.

(** The widget was sent without a description: the handlers return its
    row, the routes whose [response_model] is [Product] reject it. *)
Example widget_without_description :
  result_of (handle float_of_Z (CreateProducts [widget]) empty_store)
    = Raise ResponseValidationError /\
  store_of (handle float_of_Z (CreateProducts [widget]) empty_store) = widget_store /\
  result_of (handle float_of_Z (GetProduct 1) widget_store)
    = Raise ResponseValidationError /\
  result_of (handle float_of_Z (CreateProducts [gadget]) empty_store)
    = Ok (ProductsBody [with_key 1 gadget]).
Proof. repeat split; vm_compute; reflexivity. Qed.

(** ** The properties at sample data *)

(** The constraints of a store that is written out, by evaluation. *)
Ltac evaluate_store_ok :=
  constructor; vm_compute;
  repeat first
    [ apply NoDup_nil | apply Forall_nil
    | apply NoDup_cons; [exact (fun H => H)|]
    | apply Forall_cons; [first [reflexivity | left; reflexivity]|] ].

(** As [evaluate_store_ok], for tables of several rows. *)
Ltac not_among :=
  let H := fresh in
  intros H; repeat (destruct H as [H|H]; [discriminate H|]); exact H.

Ltac among := first [left; reflexivity | right; among].

Ltac evaluate_rows_ok :=
  constructor; vm_compute;
  repeat first
    [ apply NoDup_nil | apply Forall_nil
    | apply NoDup_cons; [not_among|]
    | apply Forall_cons; [first [reflexivity | among]|] ].

(** What the sample columns hold as given, by evaluation. *)
Ltac evaluate_given :=
  repeat first
    [ apply Forall_nil | apply Forall_cons | split
    | (vm_compute; reflexivity) | discriminate | exact I ].

Lemma remove_cart_item_deletes_row_and_product_witness :
  find (item_has_id 1) (cart_items widget_in_cart) =
    Some {| CartItemDB.id := 1; CartItemDB.product_id := 1; CartItemDB.quantity := 2 |} /\
  exists s',
    remove_cart_item 1 widget_in_cart =
      (Ok {| CartItem.product_id := 1; CartItem.quantity := 0 |}, s') /\
    find (item_has_id 1) (cart_items s') = None /\
    find (has_id 1) (products s') = None /\
    get_product 1 s' = (Raise (HTTPException 404 "Product not found"), s').
Proof.
  split; [vm_compute; reflexivity|].
  apply (remove_cart_item_deletes_row_and_product 1 widget_in_cart
           {| CartItemDB.id := 1; CartItemDB.product_id := 1;
              CartItemDB.quantity := 2 |}).
  vm_compute. reflexivity.
Defined.

Lemma get_cart_total_price_lines_and_sum_witness :
  exists lines,
    get_cart_total_price float_of_Z widget_in_cart =
      (Ok {| CartTotalResponse.items := lines;
             CartTotalResponse.total_price := sum_of_lines lines |}, widget_in_cart) /\
    Forall2 (line_of float_of_Z widget_in_cart) (cart_items widget_in_cart) lines.
Proof.
  apply (get_cart_total_price_lines_and_sum float_of_Z widget_in_cart).
  evaluate_store_ok.
Defined.

(** C3, as stated: for every existing product and any two quantities,
    adding the first and then the second leaves exactly one cart row for
    the product, with the two quantities added up.  It fails on a store
    where the product is already in the cart: with two widgets there,
    adding 2 and then 3 leaves a row of 7. *)
Lemma add_to_cart_twice_counterexample :
  ~ (forall (s : Store) (product_id q1 q2 : Z),
       find (has_id product_id) (products s) <> None ->
       exists row,
         cart_rows_of product_id
           (store_of (add_to_cart product_id q2
                        (store_of (add_to_cart product_id q1 s)))) = [row] /\
         CartItemDB.quantity row = q1 + q2).
Proof.
  intros H. destruct (H widget_in_cart 1 2 3) as (row & Hrows & Hq).
  - vm_compute. discriminate.
  - vm_compute in Hrows. inversion Hrows; subst row.
    vm_compute in Hq. discriminate.
Qed.

Lemma add_to_cart_twice_new_row_witness :
  find (item_of_product 1) (cart_items widget_store) = None /\
  exists row,
    cart_rows_of 1
      (store_of (add_to_cart 1 3 (store_of (add_to_cart 1 2 widget_store)))) = [row] /\
    CartItemDB.product_id row = 1 /\
    CartItemDB.quantity row = 2 + 3.
Proof.
  split; [vm_compute; reflexivity|].
  apply (add_to_cart_twice_new_row 1 2 3 widget_store
           {| ProductDB.id := 1; ProductDB.name := "Widget";
              ProductDB.price := 0x1.3fae147ae147bp+3%float;
              ProductDB.description := None |}).
  - vm_compute. reflexivity.
  - vm_compute. reflexivity.
  - vm_compute. reflexivity.
  - vm_compute. reflexivity.
Defined.

(** C4, as stated: whenever the product exists, [add_to_cart] returns the
    product identifier with the quantity after the increment.  It fails for
    a quantity that no integer column of a fixed width holds: adding
    [2 ^ 63] widgets raises at the commit, with no body and no 404. *)
Lemma add_to_cart_quantity_counterexample :
  ~ (forall (s : Store) (product_id quantity : Z),
       store_ok s ->
       (result_of (add_to_cart product_id quantity s)
          = Raise (HTTPException 404 "Product not found")
        <-> find (has_id product_id) (products s) = None) /\
       (find (has_id product_id) (products s) <> None ->
        result_of (add_to_cart product_id quantity s) =
          Ok {| CartItem.product_id := product_id;
                CartItem.quantity :=
                  quantity_after_add
                    (find (item_of_product product_id) (cart_items s)) quantity |})).
Proof.
  intros H. destruct (H widget_store 1 (2 ^ 63)) as [_ Hbody].
  - evaluate_store_ok.
  - assert (Hthere : find (has_id 1) (products widget_store) <> None)
      by (vm_compute; discriminate).
    specialize (Hbody Hthere). vm_compute in Hbody. discriminate.
Qed.

Lemma add_to_cart_not_found_or_quantity_witness :
  (result_of (add_to_cart 1 3 widget_in_cart)
     = Raise (HTTPException 404 "Product not found")
   <-> find (has_id 1) (products widget_in_cart) = None) /\
  (find (has_id 1) (products widget_in_cart) <> None ->
   quantity_stored_as_given
     (quantity_after_add (find (item_of_product 1) (cart_items widget_in_cart)) 3) ->
   result_of (add_to_cart 1 3 widget_in_cart) =
     Ok {| CartItem.product_id := 1;
           CartItem.quantity :=
             quantity_after_add
               (find (item_of_product 1) (cart_items widget_in_cart)) 3 |}) /\
  (find (has_id 1) (products widget_in_cart) <> None ->
   store_integer
     (quantity_after_add (find (item_of_product 1) (cart_items widget_in_cart)) 3)
     = None ->
   add_to_cart 1 3 widget_in_cart = (Raise DatabaseError, widget_in_cart)).
Proof.
  apply (add_to_cart_not_found_or_quantity 1 3 widget_in_cart).
  evaluate_store_ok.
Defined.

(** C5, as stated: every product that is created can be fetched with the
    fields it was sent with.  It fails for a price that is not a number:
    the [products] table has no value for it, the commit raises, and
    [create_products] returns nothing to fetch. *)
Lemma create_products_price_counterexample :
  ~ (forall (body : list Product.t) (s : Store),
       store_ok s ->
       exists created s',
         create_products body s = (Ok created, s') /\
         Forall2 (fun product row =>
                    same_fields product row /\
                    get_product (ProductDB.id row) s' = (Ok row, s'))
           body created).
Proof.
  intros H. destruct (H [priceless] empty_store) as (created & s' & Hrun & _).
  - evaluate_store_ok.
  - vm_compute in Hrun. discriminate.
Qed.

Lemma create_products_then_get_product_witness :
  exists created s',
    handle float_of_Z (CreateProducts [described "A widget" widget; gadget]) empty_store
      = (Ok (ProductsBody created), s') /\
    Forall2 (fun product shown =>
               Product.name shown = Product.name product /\
               Product.price shown = Product.price product /\
               Product.description shown = Product.description product /\
               handle float_of_Z (GetProduct (Product.id shown)) s'
                 = (Ok (ProductBody shown), s'))
      [described "A widget" widget; gadget] created.
Proof.
  apply (create_products_then_get_product float_of_Z
           [described "A widget" widget; gadget] empty_store).
  - evaluate_store_ok.
  - evaluate_given.
Defined.

Lemma reachable_one_row_per_product_witness :
  one_row_per_product widget_in_cart /\
  forall product_id quantity,
    one_row_per_product (store_of (add_to_cart product_id quantity widget_in_cart)).
Proof.
  apply (reachable_one_row_per_product float_of_Z widget_in_cart).
  exact (reachable_step float_of_Z (AddToCart 1 2) _
           (reachable_step float_of_Z (CreateProducts [widget]) _
              (reachable_empty float_of_Z))).
Defined.

Lemma get_cart_total_price_empty_cart_witness :
  get_cart_total_price float_of_Z widget_store =
    (Ok {| CartTotalResponse.items := [];
           CartTotalResponse.total_price := 0%float |}, widget_store).
Proof.
  apply (get_cart_total_price_empty_cart float_of_Z widget_store).
  vm_compute. reflexivity.
Defined.

Lemma not_found_leaves_store_unchanged_witness :
  is_not_found (result_of (handle float_of_Z (AddToCart 7 1) widget_in_cart)) = true /\
  store_of (handle float_of_Z (AddToCart 7 1) widget_in_cart) = widget_in_cart.
Proof.
  split; [vm_compute; reflexivity|].
  apply (not_found_leaves_store_unchanged float_of_Z (AddToCart 7 1) widget_in_cart).
  vm_compute. reflexivity.
Defined.


Lemma create_products_writes_rows_from_witness :
  create_products [widget; gadget] widget_store =
    (Ok (rows_from 2 [widget; gadget]),
     {| products := products widget_store ++ rows_from 2 [widget; gadget];
        cart_items := [];
        products_next_id := 4;
        cart_items_next_id := 1 |}).
Proof.
  apply (create_products_writes_rows_from [widget; gadget] widget_store).
  - evaluate_store_ok.
  - evaluate_given.
Defined.

Lemma create_products_stops_at_rejected_witness :
  create_products ([widget; gadget] ++ priceless :: [widget]) empty_store =
    (Raise DatabaseError,
     {| products := rows_from 1 [widget; gadget];
        cart_items := [];
        products_next_id := 3;
        cart_items_next_id := 1 |}).
Proof.
  apply (create_products_stops_at_rejected [widget; gadget] priceless [widget]
           empty_store).
  - evaluate_store_ok.
  - evaluate_given.
  - vm_compute. reflexivity.
Defined.

Lemma get_products_lists_what_get_product_finds_witness :
  exists listed,
    get_products widget_in_cart = (Ok listed, widget_in_cart) /\
    forall product,
      In product listed <->
      get_product (ProductDB.id product) widget_in_cart = (Ok product, widget_in_cart).
Proof.
  apply (get_products_lists_what_get_product_finds widget_in_cart).
  evaluate_store_ok.
Defined.


Lemma delete_product_keeps_other_products_witness :
  2 <> 1 /\
  result_of (get_product 2
               (store_of (delete_product 1
                            (store_of (create_products [widget; gadget] empty_store))))) =
  result_of (get_product 2 (store_of (create_products [widget; gadget] empty_store))).
Proof.
  split; [lia|].
  apply (delete_product_keeps_other_products 1 2
           (store_of (create_products [widget; gadget] empty_store))).
  lia.
Defined.

Lemma delete_product_cascades_to_cart_witness :
  let s' := store_of (delete_product 1 widget_in_cart) in
  cart_items s' = filter (fun c => negb (item_of_product 1 c)) (cart_items widget_in_cart) /\
  remove_cart_item 1 s' = (Raise cart_item_not_found, s').
Proof.
  apply (delete_product_cascades_to_cart 1 widget_in_cart
           {| CartItemDB.id := 1; CartItemDB.product_id := 1; CartItemDB.quantity := 2 |}).
  - evaluate_store_ok.
  - vm_compute. left. reflexivity.
  - reflexivity.
Defined.


Lemma remove_cart_item_is_delete_product_witness :
  store_of (remove_cart_item 1 widget_in_cart) =
  store_of (delete_product 1 widget_in_cart).
Proof.
  apply (remove_cart_item_is_delete_product 1 widget_in_cart
           {| CartItemDB.id := 1; CartItemDB.product_id := 1; CartItemDB.quantity := 2 |}).
  - evaluate_store_ok.
  - vm_compute. reflexivity.
Defined.


Lemma remove_cart_item_twice_not_found_witness :
  let s' := store_of (remove_cart_item 1 widget_in_cart) in
  remove_cart_item 1 s' = (Raise cart_item_not_found, s').
Proof.
  apply (remove_cart_item_twice_not_found 1 widget_in_cart
           {| CartItemDB.id := 1; CartItemDB.product_id := 1; CartItemDB.quantity := 2 |}).
  vm_compute. reflexivity.
Defined.


Lemma add_to_cart_keeps_the_rest_witness :
  let s := store_of (add_to_cart 1 2
             (store_of (create_products [widget; gadget] empty_store))) in
  let s' := store_of (add_to_cart 2 (-4) s) in
  products s' = products s /\ cart_rows_of 1 s' = cart_rows_of 1 s.
Proof.
  apply (add_to_cart_keeps_the_rest 2 (-4) 1
           (store_of (add_to_cart 1 2
              (store_of (create_products [widget; gadget] empty_store))))).
  - evaluate_rows_ok.
  - lia.
Defined.

Lemma add_to_cart_adds_up_witness :
  add_to_cart 1 3 (store_of (add_to_cart 1 (-2) widget_in_cart)) =
  add_to_cart 1 (-2 + 3) widget_in_cart.
Proof.
  apply (add_to_cart_adds_up 1 (-2) 3 widget_in_cart).
  - evaluate_store_ok.
  - vm_compute. reflexivity.
  - vm_compute. reflexivity.
Defined.

Lemma get_requests_leave_store_unchanged_witness :
  route_method GetCartTotalPrice = GET /\
  store_of (handle float_of_Z GetCartTotalPrice widget_in_cart) = widget_in_cart.
Proof.
  split; [reflexivity|].
  apply (get_requests_leave_store_unchanged float_of_Z GetCartTotalPrice widget_in_cart).
  reflexivity.
Defined.

Lemma handlers_never_fail_a_lookup_witness :
  lookup_failed (result_of (handle float_of_Z GetCartTotalPrice widget_in_cart)) = false.
Proof.
  apply (handlers_never_fail_a_lookup float_of_Z GetCartTotalPrice widget_in_cart).
  evaluate_store_ok.
Defined.

Lemma reachable_cart_rows_have_products_witness :
  exists product, get_product 1 widget_in_cart = (Ok product, widget_in_cart).
Proof.
  apply (reachable_cart_rows_have_products float_of_Z widget_in_cart
           {| CartItemDB.id := 1; CartItemDB.product_id := 1; CartItemDB.quantity := 2 |}).
  - exact (reachable_step float_of_Z (AddToCart 1 2) _
             (reachable_step float_of_Z (CreateProducts [widget]) _
                (reachable_empty float_of_Z))).
  - vm_compute. left. reflexivity.
Defined.

Lemma reachable_cart_total_lists_each_product_once_witness :
  exists total,
    get_cart_total_price float_of_Z widget_in_cart = (Ok total, widget_in_cart) /\
    map CartItemResponse.product_id (CartTotalResponse.items total)
      = map CartItemDB.product_id (cart_items widget_in_cart) /\
    NoDup (map CartItemResponse.product_id (CartTotalResponse.items total)).
Proof.
  apply (reachable_cart_total_lists_each_product_once float_of_Z widget_in_cart).
  exact (reachable_step float_of_Z (AddToCart 1 2) _
           (reachable_step float_of_Z (CreateProducts [widget]) _
              (reachable_empty float_of_Z))).
Defined.

Lemma add_to_cart_then_total_witness :
  result_of (get_cart_total_price float_of_Z
               (store_of (add_to_cart 1 2 widget_store))) =
  Ok {| CartTotalResponse.items :=
          [] ++
          [{| CartItemResponse.product_id := 1;
              CartItemResponse.product_name := "Widget";
              CartItemResponse.quantity := 2;
              CartItemResponse.price_per_unit := 0x1.3fae147ae147bp+3%float;
              CartItemResponse.price_as_per_count :=
                (float_of_Z 2 * 0x1.3fae147ae147bp+3)%float |}];
        CartTotalResponse.total_price :=
          (0 + float_of_Z 2 * 0x1.3fae147ae147bp+3)%float |}.
Proof.
  apply (add_to_cart_then_total float_of_Z 1 2 widget_store
           {| ProductDB.id := 1; ProductDB.name := "Widget";
              ProductDB.price := 0x1.3fae147ae147bp+3%float;
              ProductDB.description := None |}
           {| CartTotalResponse.items := [];
              CartTotalResponse.total_price := 0%float |}).
  - vm_compute. reflexivity.
  - vm_compute. reflexivity.
  - vm_compute. reflexivity.
  - vm_compute. reflexivity.
Defined.

Lemma add_to_cart_never_removes_a_row_witness :
  exists kept,
    In kept (cart_items (store_of (add_to_cart 1 (-2) widget_in_cart))) /\
    CartItemDB.id kept = 1 /\
    CartItemDB.product_id kept = 1.
Proof.
  apply (add_to_cart_never_removes_a_row 1 (-2) widget_in_cart
           {| CartItemDB.id := 1; CartItemDB.product_id := 1; CartItemDB.quantity := 2 |}).
  vm_compute. left. reflexivity.
Defined.

(** Two widgets in the cart and two taken back: the row stays, at zero. *)
Example add_then_take_back :
  cart_items (store_of (add_to_cart 1 (-2) widget_in_cart)) =
    [{| CartItemDB.id := 1; CartItemDB.product_id := 1; CartItemDB.quantity := 0 |}].
Proof. vm_compute. reflexivity. Qed.
